(** * The per-call relay session of [outbound.js]

    A shallow embedding of the media-stream relay between the telephony
    socket ([ws]) and the conversational-AI socket ([elevenLabsWs]), and of
    the request/response route [/process-speech].

    - JavaScript values are a small inductive type; property access,
      optional chaining, truthiness and [||] are written out.
    - A handler body is a computation in the monad [js]: it reads and
      writes the variables captured by the route closure, appends to a
      trace of effects and completes normally or by a thrown exception.
      What was assigned and emitted before a [throw] stays, as in
      JavaScript.
    - The event loop is the function [step]: one event of the environment
      (a promise settling, a socket event) runs one handler to completion. *)

From Stdlib Require Import String Ascii List ZArith NArith Bool Lia.
From Stdlib Require Import Strings.Byte.
From ExtLib Require Import Structures.Monad.
Import ListNotations.
Import MonadNotation.

Local Open Scope string_scope.
Local Open Scope list_scope.
Local Open Scope monad_scope.

(** ** JavaScript values *)

Module Js.

(** A JavaScript string is the list of its UTF-16 code units, each a
    number below 0x10000.  A string of this file, such as a literal of the
    program, is read as the string of its characters, one unit for each. *)
Definition jsstring : Type := list N.

Fixpoint of_string (s : string) : jsstring :=
  match s with
  | EmptyString => []
  | String c rest => N_of_ascii c :: of_string rest
  end.

Coercion of_string : string >-> jsstring.

Fixpoint eqb (a b : jsstring) : bool :=
  match a, b with
  | [], [] => true
  | x :: a', y :: b' => N.eqb x y && eqb a' b'
  | _, _ => false
  end.

(** The result of [JSON.parse], plus [undefined] for an absent property.
    Numbers are the integers among JSON's numbers.  [VObj] lists the own
    properties of an object, each key once, as [JSON.parse] leaves them;
    the keys the program looks up are literals, and a key is held as a
    string of this file. *)
#[local] Unset Elimination Schemes.
Inductive value : Type :=
| VUndefined
| VNull
| VBool (b : bool)
| VNum (n : Z)
| VStr (s : jsstring)
| VArr (items : list value)
| VObj (props : list (string * value)).
#[local] Set Elimination Schemes.

(** What a handler can throw. *)
Inductive exn : Type :=
| TypeError        (* property of null or undefined, bad argument type *)
| SyntaxError      (* JSON.parse, response.json(), new WebSocket(bad url) *)
| FetchFailed      (* fetch() rejected *)
| HttpStatus       (* new Error(`Failed to get signed URL: ...`) *)
| RangeError       (* a length the runtime refuses *)
| SocketError      (* the error object of a socket's "error" event *)
| ConversationTimeout. (* new Error('Conversation timeout') *)

Fixpoint own (props : list (string * value)) (k : string) : value :=
  match props with
  | [] => VUndefined
  | (k', v) :: rest => if String.eqb k k' then v else own rest k
  end.

(** [v.k]: [None] is the TypeError raised on [null] and [undefined].  The
    keys the program reads are never [length] or an index, so a string,
    number, boolean or array answers [undefined]. *)
Definition member (v : value) (k : string) : option value :=
  match v with
  | VUndefined | VNull => None
  | VObj props => Some (own props k)
  | _ => Some VUndefined
  end.

(** [v?.k] *)
Definition opt_member (v : value) (k : string) : value :=
  match member v k with
  | Some x => x
  | None => VUndefined
  end.

(** ToBoolean *)
Definition truthy (v : value) : bool :=
  match v with
  | VUndefined | VNull => false
  | VBool b => b
  | VNum n => negb (Z.eqb n 0)
  | VStr s => negb (eqb s "")
  | VArr _ | VObj _ => true
  end.

(** [a || b] *)
Definition or_else (a b : value) : value := if truthy a then a else b.

(** [v === "lit"], the test of a [switch] over string cases *)
Definition is_str (v : value) (lit : string) : bool :=
  match v with
  | VStr s => eqb s lit
  | _ => false
  end.

(** The object has the own key [k]. *)
Fixpoint has_key (props : list (string * value)) (k : string) : bool :=
  match props with
  | [] => false
  | (k', _) :: rest => String.eqb k k' || has_key rest k
  end.

(** ToString(v) throws.  A template literal and [encodeURIComponent]
    convert their values with ToString.  On a value that came out of
    [JSON.parse] the conversion throws a TypeError for an object with an own
    member [toString] (no member of such an object is callable, and the
    inherited [valueOf] gives back the object), and for an array that holds
    such an object at any depth, [join] converting every element; it throws
    for no other value. *)
Fixpoint to_string_throws (v : value) : bool :=
  match v with
  | VArr items =>
      (fix any (l : list value) : bool :=
         match l with
         | [] => false
         | x :: rest => to_string_throws x || any rest
         end) items
  | VObj props => has_key props "toString"
  | _ => false
  end.

(** A high surrogate not followed by a low one, or a low surrogate not
    preceded by a high one. *)
Definition is_high (u : N) : bool := (55296 <=? u)%N && (u <=? 56319)%N.
Definition is_low (u : N) : bool := (56320 <=? u)%N && (u <=? 57343)%N.

Fixpoint lone_surrogate (s : jsstring) : bool :=
  match s with
  | [] => false
  | u :: rest =>
      if is_high u then
        match rest with
        | v :: rest' => if is_low v then lone_surrogate rest' else true
        | [] => true
        end
      else is_low u || lone_surrogate rest
  end.

(** [encodeURIComponent(v)] throws a URIError, the conversion of [v] to a
    string having gone through: the string has a lone surrogate.  The
    elements of an array are joined with commas, so a surrogate of one
    element never pairs with one of the next. *)
Fixpoint uri_malformed (v : value) : bool :=
  match v with
  | VStr s => lone_surrogate s
  | VArr items =>
      (fix any (l : list value) : bool :=
         match l with
         | [] => false
         | x :: rest => uri_malformed x || any rest
         end) items
  | _ => false
  end.

End Js.
Import Js.

(** ** Base64, as [Buffer.from(s, "base64")] and [buf.toString("base64")] *)

Module Base64.

Definition alphabet : string :=
  "ABCDEFGHIJKLMNOPQRSTUVWXYZabcdefghijklmnopqrstuvwxyz0123456789+/".

(** The character of a sextet. *)
Definition b64char (n : N) : ascii :=
  match String.get (N.to_nat n) alphabet with
  | Some c => c
  | None => "="%char
  end.

(** [Buffer] belongs to the Node runtime.  Its decoder looks at the low
    byte of each code unit.  It is lenient: a character of the standard or
    of the URL-safe alphabet gives its sextet, any other character is
    skipped, and decoding stops at the first [=]. *)
Definition low_byte (u : N) : ascii := ascii_of_N (u mod 256).

Definition unbase64 (c : ascii) : option N :=
  let n := N_of_ascii c in
  if (65 <=? n)%N && (n <=? 90)%N then Some (n - 65)%N
  else if (97 <=? n)%N && (n <=? 122)%N then Some (n - 71)%N
  else if (48 <=? n)%N && (n <=? 57)%N then Some (n + 4)%N
  else if (n =? 43)%N || (n =? 45)%N then Some 62%N
  else if (n =? 47)%N || (n =? 95)%N then Some 63%N
  else None.

(** The sextets of a string up to its first padding character. *)
Fixpoint sextets (s : jsstring) : list N :=
  match s with
  | [] => []
  | u :: rest =>
      let c := low_byte u in
      if Ascii.eqb c "="%char then []
      else match unbase64 c with
           | Some n => n :: sextets rest
           | None => sextets rest
           end
  end.

Definition byte_of (n : N) : byte :=
  match Byte.of_N (n mod 256) with
  | Some b => b
  | None => x00
  end.

(** Four sextets give three bytes; a last group of three gives two bytes,
    of two gives one byte, and a lone sextet gives none. *)
Fixpoint pack (l : list N) : list byte :=
  match l with
  | a :: b :: c :: d :: rest =>
      byte_of (a * 4 + b / 16) :: byte_of (b mod 16 * 16 + c / 4)
        :: byte_of (c mod 4 * 64 + d) :: pack rest
  | [a; b; c] => [byte_of (a * 4 + b / 16); byte_of (b mod 16 * 16 + c / 4)]
  | [a; b] => [byte_of (a * 4 + b / 16)]
  | _ => []
  end.

(** [Buffer.from(s, "base64")] *)
Definition decode (s : jsstring) : list byte := pack (sextets s).

(** [buf.toString("base64")]: the standard alphabet, padded. *)
Fixpoint encode (bs : list byte) : string :=
  match bs with
  | [] => EmptyString
  | [x] =>
      let a := Byte.to_N x in
      String (b64char (a / 4)) (String (b64char (a mod 4 * 16)) "==")
  | [x; y] =>
      let a := Byte.to_N x in
      let b := Byte.to_N y in
      String (b64char (a / 4)) (String (b64char (a mod 4 * 16 + b / 16))
        (String (b64char (b mod 16 * 4)) "="))
  | x :: y :: z :: rest =>
      let a := Byte.to_N x in
      let b := Byte.to_N y in
      let c := Byte.to_N z in
      String (b64char (a / 4)) (String (b64char (a mod 4 * 16 + b / 16))
        (String (b64char (b mod 16 * 4 + c / 64)) (String (b64char (c mod 64))
          (encode rest))))
  end.

End Base64.

(** ** Handlers as computations *)

Module Handler.

Inductive level : Type := Info | Log | Error.

Inductive readyState : Type := CONNECTING | OPEN | CLOSING | CLOSED.

(** The markup a route replies with. *)
Inductive twiml : Type :=
| PlayThenGather (audioData : value)
    (* <Play>data:audio/mpeg;base64,${audioData}</Play>
       <Gather input=speech timeout=5 action=/process-speech>
         <Say>Please continue...</Say></Gather> *)
| SayThenHangup (text : string).
    (* <Say>text</Say><Hangup/> *)

(** What a handler does to the outside.  A frame is recorded as the object
    handed to [JSON.stringify]; a console line as its text or template and
    the values printed with it or substituted in it. *)
Inductive effect : Type :=
| Console (l : level) (text : string) (args : list value)
| ConsoleError (text : string) (e : exn)
| FetchSignedUrl                 (* getSignedUrl() begun *)
| AiSend (frame : value)         (* send(JSON.stringify(frame)) on the AI socket *)
| AiClose                        (* close() on the AI socket *)
| TelSend (frame : value)        (* ws.send(JSON.stringify(frame)) of the relay *)
| SetTimeout (ms : Z)            (* setTimeout(callback, ms) *)
| Reply (body : twiml).          (* reply.type("text/xml").send(body) *)

Inductive completion (A : Type) : Type :=
| Normal (a : A)
| Thrown (e : exn).
Arguments Normal {A} a.
Arguments Thrown {A} e.

(** A computation over the closure variables [S]. *)
Definition js (S A : Type) : Type :=
  S -> completion A * S * list effect.

Definition js_ret {S A} (a : A) : js S A := fun s => (Normal a, s, []).

Definition js_bind {S A B} (c : js S A) (k : A -> js S B) : js S B :=
  fun s =>
    match c s with
    | (Normal a, s1, out1) =>
        match k a s1 with
        | (r, s2, out2) => (r, s2, out1 ++ out2)
        end
    | (Thrown e, s1, out1) => (Thrown e, s1, out1)
    end.

#[global] Instance Monad_js {S} : Monad (js S) :=
  {| ret := @js_ret S; bind := @js_bind S |}.

Definition throw {S A} (e : exn) : js S A := fun s => (Thrown e, s, []).

(** [try { body } catch (error) { handler }] *)
Definition try_catch {S A} (body : js S A) (handler : exn -> js S A) : js S A :=
  fun s =>
    match body s with
    | (Normal a, s1, out1) => (Normal a, s1, out1)
    | (Thrown e, s1, out1) =>
        match handler e s1 with
        | (r, s2, out2) => (r, s2, out1 ++ out2)
        end
    end.

Definition emit {S} (e : effect) : js S unit := fun s => (Normal tt, s, [e]).

Definition read {S A} (f : S -> A) : js S A := fun s => (Normal (f s), s, []).

Definition write {S} (f : S -> S) : js S unit := fun s => (Normal tt, f s, []).

Definition skip {S} : js S unit := ret tt.

(** [`...${v}...`]: the conversion of one interpolated value. *)
Definition interpolate {S} (v : value) : js S unit :=
  if to_string_throws v then throw TypeError else skip.

(** [console.log(`...${v1}...${v2}...`)]: a console line whose text is a
    template literal.  The values are converted first, which can throw;
    [Console] then holds the template and the values. *)
Definition template {S} (l : level) (text : string) (args : list value)
  : js S unit :=
  if existsb to_string_throws args then throw TypeError
  else emit (Console l text args).

(** What the handlers take from the Node runtime and this development does
    not define: the bytes [Buffer.from(v, "base64")] makes of an array or
    of an object [v], or what it throws.  (Node copies an array and an
    array-like object element by element, and follows [valueOf] and
    [{type: "Buffer", data}].) *)
Class Runtime : Type := {
  Buffer_from_object : value -> completion (list byte)
}.

(** A handler run to completion by the event loop. *)
Definition exec {S} (h : js S unit) (s : S) : S * list effect :=
  match h s with
  | (_, s', out) => (s', out)
  end.

Definition idle {S} (s : S) : S * list effect := (s, []).

(** [JSON.parse(data)]; a frame that does not parse is [None]. *)
Definition JSON_parse {S} (data : option value) : js S value :=
  match data with
  | Some v => ret v
  | None => throw SyntaxError
  end.

(** [v.k] inside a handler *)
Definition get {S} (v : value) (k : string) : js S value :=
  match member v k with
  | Some x => ret x
  | None => throw TypeError
  end.

(** How [fetch] and [response.json()] of [getSignedUrl] turn out. *)
Inductive fetch_result : Type :=
| FetchRejected
| FetchResponse (ok : bool) (body : option value).

(** [getSignedUrl], from the point where [fetch] settles. *)
Definition getSignedUrl {S} (r : fetch_result) : js S value :=
  try_catch
    (match r with
     | FetchRejected => throw FetchFailed
     | FetchResponse ok body =>
         if negb ok then throw HttpStatus
         else
           data <- JSON_parse body ;;
           get data "signed_url"
     end)
    (fun error =>
       emit (ConsoleError "Error getting signed URL:" error) ;;
       throw error).

(** [close()] of the ws library on a socket in state [st]: an opening or
    open socket becomes CLOSING at once; on a closing or closed one the call
    changes nothing. *)
Definition after_close (st : readyState) : readyState :=
  match st with
  | CONNECTING | OPEN => CLOSING
  | CLOSING | CLOSED => st
  end.

(** The trace without its console lines: the frames sent on either socket,
    the close calls, the fetches, the timers and the replies. *)
Definition is_console (e : effect) : bool :=
  match e with
  | Console _ _ _ | ConsoleError _ _ => true
  | _ => false
  end.

Definition visible (out : list effect) : list effect :=
  filter (fun e => negb (is_console e)) out.



End Handler.
Import Handler.

(** ** The relay of [/outbound-media-stream] *)

Module Relay.

(** The variables of the route closure, with the [readyState] of the two
    sockets.  [elevenLabsWs = None] is the JavaScript [null]. *)
Record session : Type := mkSession {
  streamSid : value;
  callSid : value;
  elevenLabsWs : option readyState;
  customParameters : value;
  ws : readyState;
  awaitingSignedUrl : bool  (* setupElevenLabs is suspended at its await *)
}.

Definition set_streamSid (v : value) (s : session) : session :=
  mkSession v (callSid s) (elevenLabsWs s) (customParameters s) (ws s)
            (awaitingSignedUrl s).
Definition set_callSid (v : value) (s : session) : session :=
  mkSession (streamSid s) v (elevenLabsWs s) (customParameters s) (ws s)
            (awaitingSignedUrl s).
Definition set_elevenLabsWs (r : option readyState) (s : session) : session :=
  mkSession (streamSid s) (callSid s) r (customParameters s) (ws s)
            (awaitingSignedUrl s).
Definition set_customParameters (v : value) (s : session) : session :=
  mkSession (streamSid s) (callSid s) (elevenLabsWs s) v (ws s)
            (awaitingSignedUrl s).
Definition set_ws (r : readyState) (s : session) : session :=
  mkSession (streamSid s) (callSid s) (elevenLabsWs s) (customParameters s) r
            (awaitingSignedUrl s).
Definition set_awaitingSignedUrl (b : bool) (s : session) : session :=
  mkSession (streamSid s) (callSid s) (elevenLabsWs s) (customParameters s)
            (ws s) b.

Definition handler : Type := js session unit.

(** [elevenLabsWs?.readyState === WebSocket.OPEN] *)
Definition elevenLabs_is_open (s : session) : bool :=
  match elevenLabsWs s with
  | Some OPEN => true
  | _ => false
  end.

(** [elevenLabsWs.send(JSON.stringify(frame))].  The trace records the call;
    on [null] the member access raises. *)
Definition elevenLabs_send (frame : value) : handler :=
  sock <- read elevenLabsWs ;;
  match sock with
  | None => throw TypeError
  | Some _ => emit (AiSend frame)
  end.

(** [elevenLabsWs.close()] *)
Definition elevenLabs_close : handler :=
  sock <- read elevenLabsWs ;;
  match sock with
  | None => throw TypeError
  | Some st =>
      emit AiClose ;;
      write (set_elevenLabsWs (Some (after_close st)))
  end.

(** [ws.send(JSON.stringify(frame))] *)
Definition twilio_send (frame : value) : handler := emit (TelSend frame).

(** The object literals the handlers send. *)
Definition media_frame (streamSid payload : value) : value :=
  VObj [("event", VStr "media");
        ("streamSid", streamSid);
        ("media", VObj [("payload", payload)])].

Definition clear_frame (streamSid : value) : value :=
  VObj [("event", VStr "clear"); ("streamSid", streamSid)].

Definition pong_frame (event_id : value) : value :=
  VObj [("type", VStr "pong"); ("event_id", event_id)].

Definition user_audio_frame (chunk : value) : value :=
  VObj [("user_audio_chunk", chunk)].

Definition handshake (prompt first_message : value) : value :=
  VObj [("type", VStr "conversation_initiation_client_data");
        ("conversation_config_override",
         VObj [("agent",
           VObj [("prompt", VObj [("prompt", prompt)]);
                 ("first_message", first_message)])])].

Section WithRuntime.
Context {runtime : Runtime}.

(** [Buffer.from(v, "base64").toString("base64")].  A string is decoded;
    Node raises a TypeError on [undefined], [null], booleans and numbers;
    what it makes of an array or an object is the runtime's. *)
Definition Buffer_reencode (v : value) : js session value :=
  match v with
  | VStr s => ret (VStr (Base64.encode (Base64.decode s)))
  | VArr _ | VObj _ =>
      match Buffer_from_object v with
      | Normal bytes => ret (VStr (Base64.encode bytes))
      | Thrown e => throw e
      end
  | _ => throw TypeError
  end.

(** The object [initialConfig] of the "open" handler, built from the value
    of [customParameters] at that time. *)
Definition initialConfig (params : value) : value :=
  handshake
    (or_else (opt_member params "prompt")
             (VStr "you are a gary from the phone store"))
    (or_else (opt_member params "first_message")
             (VStr "hey there! how can I help you today?")).

(** The "open" handler of [elevenLabsWs]. *)
Definition on_elevenlabs_open : handler :=
  emit (Console Log "[ElevenLabs] Connected to Conversational AI" []) ;;
  params <- read customParameters ;;
  let initialConfig := initialConfig params in
  override <- get initialConfig "conversation_config_override" ;;
  agent <- get override "agent" ;;
  prompt <- get agent "prompt" ;;
  prompt <- get prompt "prompt" ;;
  emit (Console Log "[ElevenLabs] Sending initial config with prompt:"
          [prompt]) ;;
  elevenLabs_send initialConfig.

(** The "message" handler of [elevenLabsWs]. *)
Definition on_elevenlabs_message (data : option value) : handler :=
  try_catch
    (message <- JSON_parse data ;;
     type <- get message "type" ;;
     if is_str type "conversation_initiation_metadata" then
       emit (Console Log "[ElevenLabs] Received initiation metadata" [])
     else if is_str type "audio" then
       sid <- read streamSid ;;
       if truthy sid then
         audio <- get message "audio" ;;
         if truthy (opt_member audio "chunk") then
           audio <- get message "audio" ;;
           chunk <- get audio "chunk" ;;
           twilio_send (media_frame sid chunk)
         else
           audio_event <- get message "audio_event" ;;
           if truthy (opt_member audio_event "audio_base_64") then
             audio_event <- get message "audio_event" ;;
             audio_base_64 <- get audio_event "audio_base_64" ;;
             twilio_send (media_frame sid audio_base_64)
           else skip
       else
         emit (Console Log "[ElevenLabs] Received audio but no StreamSid yet" [])
     else if is_str type "interruption" then
       sid <- read streamSid ;;
       if truthy sid then
         twilio_send (clear_frame sid)
       else skip
     else if is_str type "ping" then
       ping_event <- get message "ping_event" ;;
       if truthy (opt_member ping_event "event_id") then
         ping_event <- get message "ping_event" ;;
         event_id <- get ping_event "event_id" ;;
         elevenLabs_send (pong_frame event_id)
       else skip
     else if is_str type "agent_response" then
       agent_response_event <- get message "agent_response_event" ;;
       template Log
         "[Twilio] Agent response: ${message.agent_response_event?.agent_response}"
         [opt_member agent_response_event "agent_response"]
     else if is_str type "user_transcript" then
       user_transcription_event <- get message "user_transcription_event" ;;
       template Log
         "[Twilio] User transcript: ${message.user_transcription_event?.user_transcript}"
         [opt_member user_transcription_event "user_transcript"]
     else
       template Log "[ElevenLabs] Unhandled message type: ${message.type}" [type])
    (fun error =>
       emit (ConsoleError "[ElevenLabs] Error processing message:" error)).

(** The "error" and "close" handlers of [elevenLabsWs]. *)
Definition on_elevenlabs_error : handler :=
  emit (ConsoleError "[ElevenLabs] WebSocket error:" SocketError).

Definition on_elevenlabs_close : handler :=
  emit (Console Log "[ElevenLabs] Disconnected" []).

(** [setupElevenLabs], resumed when [getSignedUrl] settles.  [accepted]
    tells whether [new WebSocket(signedUrl)] returns a socket or throws on
    the address. *)
Definition setupElevenLabs (r : fetch_result) (accepted : bool) : handler :=
  try_catch
    (signedUrl <- getSignedUrl r ;;
     if accepted then write (set_elevenLabsWs (Some CONNECTING))
     else throw SyntaxError)
    (fun error => emit (ConsoleError "[ElevenLabs] Setup error:" error)).

(** The "message" handler of the telephony socket. *)
Definition on_twilio_message (message : option value) : handler :=
  try_catch
    (msg <- JSON_parse message ;;
     event <- get msg "event" ;;
     (if negb (is_str event "media")
      then template Log "[Twilio] Received event: ${msg.event}" [event]
      else skip) ;;
     if is_str event "start" then
       start <- get msg "start" ;;
       sid <- get start "streamSid" ;;
       write (set_streamSid sid) ;;
       start <- get msg "start" ;;
       cid <- get start "callSid" ;;
       write (set_callSid cid) ;;
       start <- get msg "start" ;;
       params <- get start "customParameters" ;;
       write (set_customParameters params) ;;
       sid <- read streamSid ;;
       cid <- read callSid ;;
       template Log
         "[Twilio] Stream started - StreamSid: ${streamSid}, CallSid: ${callSid}"
         [sid; cid] ;;
       params <- read customParameters ;;
       emit (Console Log "[Twilio] Start parameters:" [params])
     else if is_str event "media" then
       open <- read elevenLabs_is_open ;;
       if open : bool then
         media <- get msg "media" ;;
         payload <- get media "payload" ;;
         chunk <- Buffer_reencode payload ;;
         elevenLabs_send (user_audio_frame chunk)
       else skip
     else if is_str event "stop" then
       sid <- read streamSid ;;
       template Log "[Twilio] Stream ${streamSid} ended" [sid] ;;
       open <- read elevenLabs_is_open ;;
       if open : bool then elevenLabs_close else skip
     else
       template Log "[Twilio] Unhandled event: ${msg.event}" [event])
    (fun error =>
       emit (ConsoleError "[Twilio] Error processing message:" error)).

(** The "close" handler of the telephony socket. *)
Definition on_twilio_close : handler :=
  emit (Console Log "[Twilio] Client disconnected" []) ;;
  open <- read elevenLabs_is_open ;;
  if open : bool then elevenLabs_close else skip.

(** [ws.on("error", console.error)] *)
Definition on_twilio_error : handler :=
  emit (ConsoleError "" SocketError).

(** The route handler up to its return: the closure variables are
    initialised, [setupElevenLabs()] runs as far as its [await]. *)
Definition connected : session :=
  mkSession VNull VNull None VNull OPEN true.

Definition on_connection : list effect :=
  [Console Info "[Server] Twilio connected to outbound media stream" [];
   FetchSignedUrl].

(** What the environment delivers to one session. *)
Inductive event : Type :=
| Fetched (r : fetch_result) (accepted : bool)
| AiOpened
| AiMessage (data : option value)
| AiErrored
| AiClosed
| TelMessage (data : option value)
| TelErrored
| TelClosed.

(** One turn of the event loop.  A socket delivers "open" once, while it is
    CONNECTING; "message" while it is OPEN or CLOSING; "error" and "close"
    until it is CLOSED, an error leaving it CLOSING.  An event that its
    socket cannot deliver in the current state runs no handler. *)
Definition step (s : session) (e : event) : session * list effect :=
  match e with
  | Fetched r accepted =>
      if awaitingSignedUrl s
      then exec (setupElevenLabs r accepted) (set_awaitingSignedUrl false s)
      else idle s
  | AiOpened =>
      match elevenLabsWs s with
      | Some CONNECTING => exec on_elevenlabs_open (set_elevenLabsWs (Some OPEN) s)
      | _ => idle s
      end
  | AiMessage data =>
      match elevenLabsWs s with
      | Some OPEN | Some CLOSING => exec (on_elevenlabs_message data) s
      | _ => idle s
      end
  | AiErrored =>
      match elevenLabsWs s with
      | Some CONNECTING | Some OPEN | Some CLOSING =>
          exec on_elevenlabs_error (set_elevenLabsWs (Some CLOSING) s)
      | _ => idle s
      end
  | AiClosed =>
      match elevenLabsWs s with
      | Some CONNECTING | Some OPEN | Some CLOSING =>
          exec on_elevenlabs_close (set_elevenLabsWs (Some CLOSED) s)
      | _ => idle s
      end
  | TelMessage data =>
      match ws s with
      | OPEN | CLOSING => exec (on_twilio_message data) s
      | _ => idle s
      end
  | TelErrored =>
      match ws s with
      | CLOSED => idle s
      | _ => exec on_twilio_error (set_ws CLOSING s)
      end
  | TelClosed =>
      match ws s with
      | CLOSED => idle s
      | _ => exec on_twilio_close (set_ws CLOSED s)
      end
  end.

(** A run of the event loop and everything it emits. *)
Fixpoint run (s : session) (es : list event) : session * list effect :=
  match es with
  | [] => (s, [])
  | e :: rest =>
      let (s1, out1) := step s e in
      let (s2, out2) := run s1 rest in
      (s2, out1 ++ out2)
  end.

End WithRuntime.

End Relay.

(** ** The route [/process-speech] *)

Module ProcessSpeech.

(** [conversationPromise] *)
Inductive promise : Type :=
| Pending
| Fulfilled (v : value)
| Rejected (e : exn).

(** The variables of one request: the socket [ws] ([None] until it is
    constructed), [audioResponse], the promise, whether the route is still
    suspended in [getSignedUrl], whether the callback given to [setTimeout]
    is still to run, and whether the reply went out. *)
Record request : Type := mkRequest {
  speechResult : value;
  ws : option readyState;
  audioResponse : value;
  conversationPromise : promise;
  awaitingSignedUrl : bool;
  timerArmed : bool;
  replied : bool
}.

Definition set_ws (r : option readyState) (q : request) : request :=
  mkRequest (speechResult q) r (audioResponse q) (conversationPromise q)
            (awaitingSignedUrl q) (timerArmed q) (replied q).
Definition set_audioResponse (v : value) (q : request) : request :=
  mkRequest (speechResult q) (ws q) v (conversationPromise q)
            (awaitingSignedUrl q) (timerArmed q) (replied q).
Definition set_conversationPromise (p : promise) (q : request) : request :=
  mkRequest (speechResult q) (ws q) (audioResponse q) p
            (awaitingSignedUrl q) (timerArmed q) (replied q).
Definition set_awaitingSignedUrl (b : bool) (q : request) : request :=
  mkRequest (speechResult q) (ws q) (audioResponse q) (conversationPromise q)
            b (timerArmed q) (replied q).
Definition set_timerArmed (b : bool) (q : request) : request :=
  mkRequest (speechResult q) (ws q) (audioResponse q) (conversationPromise q)
            (awaitingSignedUrl q) b (replied q).
Definition set_replied (b : bool) (q : request) : request :=
  mkRequest (speechResult q) (ws q) (audioResponse q) (conversationPromise q)
            (awaitingSignedUrl q) (timerArmed q) b.

Definition handler : Type := js request unit.

(** The delay handed to [setTimeout], in milliseconds. *)
Definition timeout_ms : Z := 10000.

Definition ws_send (frame : value) : handler :=
  sock <- read ws ;;
  match sock with
  | None => throw TypeError
  | Some _ => emit (AiSend frame)
  end.

Definition ws_close : handler :=
  sock <- read ws ;;
  match sock with
  | None => throw TypeError
  | Some st => emit AiClose ;; write (set_ws (Some (after_close st)))
  end.

(** [resolve(v)] and [reject(e)]: only the first settles the promise. *)
Definition resolve (v : value) : handler :=
  p <- read conversationPromise ;;
  match p with
  | Pending => write (set_conversationPromise (Fulfilled v))
  | _ => skip
  end.

Definition reject (e : exn) : handler :=
  p <- read conversationPromise ;;
  match p with
  | Pending => write (set_conversationPromise (Rejected e))
  | _ => skip
  end.

Definition sorry_text : string :=
  "Sorry, there was an error processing your request.".

(** The [catch] block of the route. *)
Definition on_failure (error : exn) : handler :=
  emit (ConsoleError "Error processing speech:" error) ;;
  emit (Reply (SayThenHangup sorry_text)) ;;
  write (set_replied true).

(** The route after [await conversationPromise]: it resumes once, when the
    promise has settled.  The markup of the reply is a template literal
    that holds [audioData]; it is built inside the [try]. *)
Definition resume : handler :=
  done <- read replied ;;
  if done : bool then skip
  else
    p <- read conversationPromise ;;
    match p with
    | Pending => skip
    | Fulfilled audioData =>
        try_catch
          (interpolate audioData ;;
           emit (Reply (PlayThenGather audioData)) ;;
           write (set_replied true))
          on_failure
    | Rejected error => on_failure error
    end.

(** The "open" handler. *)
Definition on_open : handler :=
  emit (Console Log "WebSocket connected" []) ;;
  ws_send (VObj [("type", VStr "conversation_initiation_client_data");
                 ("conversation_config_override",
                  VObj [("agent",
                    VObj [("prompt",
                      VObj [("prompt", VStr "you are a helpful AI assistant")])])])]) ;;
  text <- read speechResult ;;
  let textMessage := VObj [("type", VStr "text"); ("text", text)] in
  emit (Console Log "Sending text message:" [textMessage]) ;;
  ws_send textMessage.

(** [message.audio?.chunk || message.audio_event?.audio_base_64] *)
Definition first_audio (message : value) : js request value :=
  audio <- get message "audio" ;;
  if truthy (opt_member audio "chunk") then ret (opt_member audio "chunk")
  else
    audio_event <- get message "audio_event" ;;
    ret (opt_member audio_event "audio_base_64").

(** The "message" handler. *)
Definition on_message (data : option value) : handler :=
  try_catch
    (message <- JSON_parse data ;;
     type <- get message "type" ;;
     emit (Console Log "Received message type:" [type]) ;;
     type <- get message "type" ;;
     if is_str type "audio" then
       found <- first_audio message ;;
       if truthy found then
         v <- first_audio message ;;
         write (set_audioResponse v) ;;
         ws_close ;;
         v <- read audioResponse ;;
         resolve v
       else skip
     else skip)
    (fun error =>
       emit (ConsoleError "Error processing WebSocket message:" error)).

(** The "error" handler. *)
Definition on_error : handler :=
  emit (ConsoleError "WebSocket error:" SocketError) ;;
  reject SocketError.

(** The callback given to [setTimeout]. *)
Definition on_timeout : handler :=
  ws_close ;;
  reject ConversationTimeout.

(** The route from the point where [getSignedUrl] settles to its
    [await conversationPromise]. *)
Definition on_fetched (r : fetch_result) (accepted : bool) : handler :=
  try_catch
    (signedUrl <- getSignedUrl r ;;
     if accepted then
       write (set_ws (Some CONNECTING)) ;;
       emit (SetTimeout timeout_ms) ;;
       write (set_timerArmed true)
     else throw SyntaxError)
    on_failure.

(** The route handler up to its first [await]. *)
Definition received (speech : value) : request :=
  mkRequest speech None VNull Pending true false false.

Definition on_request : list effect := [FetchSignedUrl].

Inductive event : Type :=
| Fetched (r : fetch_result) (accepted : bool)
| Opened
| Message (data : option value)
| Errored
| Closed
| TimerFired.

(** One turn of the event loop; the route resumes after the handler that
    settled the promise.  The timer fires once, after it was set. *)
Definition step (q : request) (e : event) : request * list effect :=
  match e with
  | Fetched r accepted =>
      if awaitingSignedUrl q
      then exec (on_fetched r accepted) (set_awaitingSignedUrl false q)
      else idle q
  | Opened =>
      match ws q with
      | Some CONNECTING => exec (on_open ;; resume) (set_ws (Some OPEN) q)
      | _ => idle q
      end
  | Message data =>
      match ws q with
      | Some OPEN | Some CLOSING => exec (on_message data ;; resume) q
      | _ => idle q
      end
  | Errored =>
      match ws q with
      | Some CONNECTING | Some OPEN | Some CLOSING =>
          exec (on_error ;; resume) (set_ws (Some CLOSING) q)
      | _ => idle q
      end
  | Closed =>
      match ws q with
      | Some CONNECTING | Some OPEN | Some CLOSING =>
          idle (set_ws (Some CLOSED) q)
      | _ => idle q
      end
  | TimerFired =>
      if timerArmed q
      then exec (on_timeout ;; resume) (set_timerArmed false q)
      else idle q
  end.

Fixpoint run (q : request) (es : list event) : request * list effect :=
  match es with
  | [] => (q, [])
  | e :: rest =>
      let (q1, out1) := step q e in
      let (q2, out2) := run q1 rest in
      (q2, out1 ++ out2)
  end.

End ProcessSpeech.

(** ** Vocabulary of the properties *)

Module Terms.
Import Relay.

(** The runtime of the scenarios below.  Their payloads are strings, so
    what [Buffer.from] makes of an array or an object plays no part in
    them. *)
#[export] Instance strings_only : Runtime :=
  {| Buffer_from_object := fun _ => Thrown TypeError |}.

(** [getSignedUrl] throws on this outcome of the fetch. *)
Definition fetch_throws (r : fetch_result) : bool :=
  match r with
  | FetchRejected => true
  | FetchResponse ok body =>
      negb ok ||
      match body with
      | None => true
      | Some data =>
          match member data "signed_url" with
          | None => true
          | Some _ => false
          end
      end
  end.

(** The payload of an AI audio message: [audio.chunk] when truthy, else
    [audio_event.audio_base_64]. *)
Definition audio_payload (message : value) : value :=
  or_else (opt_member (opt_member message "audio") "chunk")
          (opt_member (opt_member message "audio_event") "audio_base_64").

(** A telephony frame whose [event] is ["start"]. *)
Definition is_start (e : event) : bool :=
  match e with
  | TelMessage (Some msg) => is_str (opt_member msg "event") "start"
  | _ => false
  end.




(** The call of [fetch] that begins the connect to the AI. *)
Definition is_fetch (e : effect) : bool :=
  match e with
  | FetchSignedUrl => true
  | _ => false
  end.

Definition is_Reply (e : effect) : bool :=
  match e with
  | Reply _ => true
  | _ => false
  end.

(** Frames and outcomes of the scenarios. *)
Definition signed : fetch_result :=
  FetchResponse true
    (Some (VObj [("signed_url", VStr "wss://api.elevenlabs.io/v1/convai")])).

Definition start_MZ1 : value :=
  VObj [("event", VStr "start");
        ("start", VObj [("streamSid", VStr "MZ1");
                        ("callSid", VStr "CA1");
                        ("customParameters",
                         VObj [("prompt", VStr "p");
                               ("first_message", VStr "hi")])])].

Definition media_QUJD : value :=
  VObj [("event", VStr "media"); ("media", VObj [("payload", VStr "QUJD")])].

Definition media_of (payload : jsstring) : value :=
  VObj [("event", VStr "media"); ("media", VObj [("payload", VStr payload)])].

Definition stop_frame : value := VObj [("event", VStr "stop")].

Definition audio_of (chunk : value) : value :=
  VObj [("type", VStr "audio"); ("audio", VObj [("chunk", chunk)])].

Definition interruption : value := VObj [("type", VStr "interruption")].

Definition ping_of (event_id : value) : value :=
  VObj [("type", VStr "ping"); ("ping_event", VObj [("event_id", event_id)])].

(** A session whose AI socket opened before any telephony frame came, and
    the same after the Start frame of the scenarios. *)
Definition opened : session :=
  fst (run connected [Fetched signed true; AiOpened]).

Definition started : session := fst (step opened (TelMessage (Some start_MZ1))).

End Terms.

(** ** The relay of [/media-stream] in [index.js] *)

Module Inbound.
Import Relay.

Section WithRuntime.
Context {runtime : Runtime}.

(** The route differs from the one of [outbound.js] in its "open" handler,
    which only logs, and in the "start" case, which leaves
    [customParameters] alone; every other handler has the same text and is
    taken from [Relay]. *)
Definition on_elevenlabs_open : handler :=
  emit (Console Log "[ElevenLabs] Connected to Conversational AI" []).

Definition on_twilio_message (message : option value) : handler :=
  try_catch
    (msg <- JSON_parse message ;;
     event <- get msg "event" ;;
     (if negb (is_str event "media")
      then template Log "[Twilio] Received event: ${msg.event}" [event]
      else skip) ;;
     if is_str event "start" then
       start <- get msg "start" ;;
       sid <- get start "streamSid" ;;
       write (set_streamSid sid) ;;
       start <- get msg "start" ;;
       cid <- get start "callSid" ;;
       write (set_callSid cid) ;;
       sid <- read streamSid ;;
       cid <- read callSid ;;
       template Log
         "[Twilio] Stream started - StreamSid: ${streamSid}, CallSid: ${callSid}"
         [sid; cid]
     else if is_str event "media" then
       open <- read elevenLabs_is_open ;;
       if open : bool then
         media <- get msg "media" ;;
         payload <- get media "payload" ;;
         chunk <- Buffer_reencode payload ;;
         elevenLabs_send (user_audio_frame chunk)
       else skip
     else if is_str event "stop" then
       sid <- read streamSid ;;
       template Log "[Twilio] Stream ${streamSid} ended" [sid] ;;
       open <- read elevenLabs_is_open ;;
       if open : bool then elevenLabs_close else skip
     else
       template Log "[Twilio] Unhandled event: ${msg.event}" [event])
    (fun error =>
       emit (ConsoleError "[Twilio] Error processing message:" error)).

Definition on_connection : list effect :=
  [Console Info "[Server] Twilio connected to media stream" [];
   FetchSignedUrl].

Definition step (s : session) (e : event) : session * list effect :=
  match e with
  | Fetched r accepted =>
      if awaitingSignedUrl s
      then exec (setupElevenLabs r accepted) (set_awaitingSignedUrl false s)
      else idle s
  | AiOpened =>
      match elevenLabsWs s with
      | Some CONNECTING => exec on_elevenlabs_open (set_elevenLabsWs (Some OPEN) s)
      | _ => idle s
      end
  | AiMessage data =>
      match elevenLabsWs s with
      | Some OPEN | Some CLOSING => exec (on_elevenlabs_message data) s
      | _ => idle s
      end
  | AiErrored =>
      match elevenLabsWs s with
      | Some CONNECTING | Some OPEN | Some CLOSING =>
          exec on_elevenlabs_error (set_elevenLabsWs (Some CLOSING) s)
      | _ => idle s
      end
  | AiClosed =>
      match elevenLabsWs s with
      | Some CONNECTING | Some OPEN | Some CLOSING =>
          exec on_elevenlabs_close (set_elevenLabsWs (Some CLOSED) s)
      | _ => idle s
      end
  | TelMessage data =>
      match ws s with
      | OPEN | CLOSING => exec (on_twilio_message data) s
      | _ => idle s
      end
  | TelErrored =>
      match ws s with
      | CLOSED => idle s
      | _ => exec on_twilio_error (set_ws CLOSING s)
      end
  | TelClosed =>
      match ws s with
      | CLOSED => idle s
      | _ => exec on_twilio_close (set_ws CLOSED s)
      end
  end.

Fixpoint run (s : session) (es : list event) : session * list effect :=
  match es with
  | [] => (s, [])
  | e :: rest =>
      let (s1, out1) := step s e in
      let (s2, out2) := run s1 rest in
      (s2, out1 ++ out2)
  end.

End WithRuntime.

End Inbound.

(** ** The HTTP routes of [outbound.js] *)

Module Routes.

(** The markup of a reply.  A value interpolated in the template is held as
    the value. *)
Inductive markup : Type :=
| ConnectStream (host : value) (path : string)
                (parameters : list (string * value))
    (* <Connect><Stream url="wss://${host}${path}">
         <Parameter name=... value="${...}" /> ...</Stream></Connect> *)
| SayThenGather (say : string) (first_message : value).
    (* <Say>say</Say>
       <Gather input="speech" timeout="5" action="/process-speech">
         <Say>${first_message}</Say></Gather> *)

(** Why the [try] of [/outbound-call] fails. *)
Inductive failure : Type :=
| NoHeaders         (* request.headers.host on null or undefined *)
| Unprintable       (* a value of the url template that ToString refuses *)
| Malformed         (* the URIError of encodeURIComponent *)
| CreateRejected    (* twilioClient.calls.create rejected *)
| NoCall.           (* call.sid on null or undefined *)

(** What a route does.  [CallsCreate] is [twilioClient.calls.create]; its
    [url] is recorded as the three values interpolated in it, the host
    header and the arguments of the two [encodeURIComponent].  The template
    is built from left to right inside the [try]: ToString converts each
    value, and [encodeURIComponent] refuses a lone surrogate. *)
Inductive action : Type :=
| CallsCreate (from to host prompt first_message : value)
| ConsoleError (text : string) (e : failure)
| SendJson (code : Z) (body : value)
| SendXml (body : markup).

(** A route run to its end: [None] when it threw outside any [try]. *)
Definition outcome : Type := option (list action).

(** The [catch] block of [/outbound-call]. *)
Definition call_failed (e : failure) : list action :=
  [ConsoleError "Error initiating outbound call:" e;
   SendJson 500 (VObj [("success", VBool false);
                       ("error", VStr "Failed to initiate call")])].

(** [app.post("/outbound-call", ...)].  [created] is how
    [twilioClient.calls.create] settles: [None] when it rejects, else the
    call it resolves with. *)
Definition outbound_call (TWILIO_PHONE_NUMBER : value)
    (body headers : value) (created : option value) : outcome :=
  match member body "number", member body "prompt",
        member body "first_message" with
  | Some number, Some prompt, Some first_message =>
      if negb (truthy number) then
        Some [SendJson 400 (VObj [("error", VStr "Phone number is required")])]
      else
        match member headers "host" with
        | None => Some (call_failed NoHeaders)
        | Some host =>
            if to_string_throws host || to_string_throws prompt
            then Some (call_failed Unprintable)
            else if uri_malformed prompt
            then Some (call_failed Malformed)
            else if to_string_throws first_message
            then Some (call_failed Unprintable)
            else if uri_malformed first_message
            then Some (call_failed Malformed)
            else
            let placed :=
              CallsCreate TWILIO_PHONE_NUMBER number host prompt first_message in
            match created with
            | None => Some (placed :: call_failed CreateRejected)
            | Some call =>
                match member call "sid" with
                | None => Some (placed :: call_failed NoCall)
                | Some sid =>
                    Some [placed;
                          SendJson 200 (VObj [("success", VBool true);
                                              ("message", VStr "Call initiated");
                                              ("callSid", sid)])]
                end
            end
        end
  | _, _, _ => None
  end.

(** [app.all("/outbound-call-twiml", ...)], with the two variables it reads
    from [process.env].  What the templates of the markup hold comes from
    the parsed query, the host header and the environment: strings, arrays
    of strings for a key given twice, and [undefined], all of which a
    template converts. *)
Definition outbound_call_twiml (VERCEL_URL VERCEL : value)
    (query headers : value) : outcome :=
  match member query "prompt", member query "first_message" with
  | Some p, Some f =>
      let prompt := or_else p (VStr "") in
      let first_message := or_else f (VStr "") in
      match (if truthy VERCEL_URL then Some VERCEL_URL
             else member headers "host") with
      | None => None
      | Some vercelUrl =>
          let isVercel := truthy VERCEL in
          Some [SendXml
                  (if isVercel then SayThenGather "Hello" first_message
                   else ConnectStream vercelUrl "/outbound-media-stream"
                          [("prompt", prompt);
                           ("first_message", first_message)])]
      end
  | _, _ => None
  end.

End Routes.

(** ** More vocabulary *)

Module Terms2.
Import Relay Terms.

(** The frames sent on the AI socket, in order. *)
Fixpoint ai_sends (out : list effect) : list value :=
  match out with
  | [] => []
  | AiSend frame :: rest => frame :: ai_sends rest
  | _ :: rest => ai_sends rest
  end.

(** The frames sent on the telephony socket, in order. *)
Fixpoint tel_sends (out : list effect) : list value :=
  match out with
  | [] => []
  | TelSend frame :: rest => frame :: tel_sends rest
  | _ :: rest => tel_sends rest
  end.

(** The frame is the initial configuration. *)
Definition is_handshake (frame : value) : bool :=
  is_str (opt_member frame "type") "conversation_initiation_client_data".

(** The frame is [{user_audio_chunk: ...}]. *)
Definition is_user_audio (frame : value) : bool :=
  match frame with
  | VObj [(k, _)] => String.eqb k "user_audio_chunk"
  | _ => false
  end.

(** A telephony frame is a media frame with a truthy stream identifier and
    payload, or a clear frame with a truthy stream identifier. *)
Definition routed (frame : value) : bool :=
  match frame with
  | VObj [(e, VStr kind); (k, sid); (m, VObj [(p, payload)])] =>
      String.eqb e "event" && eqb kind "media"
      && String.eqb k "streamSid" && truthy sid
      && String.eqb m "media" && String.eqb p "payload" && truthy payload
  | VObj [(e, VStr kind); (k, sid)] =>
      String.eqb e "event" && eqb kind "clear"
      && String.eqb k "streamSid" && truthy sid
  | _ => false
  end.

(** The console lines that report an error. *)
Fixpoint errors (out : list effect) : list (string * exn) :=
  match out with
  | [] => []
  | Handler.ConsoleError text e :: rest => (text, e) :: errors rest
  | _ :: rest => errors rest
  end.

(** The replies of a route. *)
Definition replies (out : list effect) : list effect := filter is_Reply out.

(** The type of an AI message is one the relay acts on. *)
Definition acted_on (type : value) : bool :=
  is_str type "audio" || is_str type "interruption" || is_str type "ping".

(** The event of a telephony frame is one the relay acts on. *)
Definition handled (event : value) : bool :=
  is_str event "start" || is_str event "media" || is_str event "stop".

(** The stages of the AI socket: 2 while the address is awaited, 1 while
    the socket is connecting, 0 from then on. *)
Definition stage (s : session) : nat :=
  match awaitingSignedUrl s, elevenLabsWs s with
  | true, _ => 2
  | false, Some CONNECTING => 1
  | false, _ => 0
  end.

(** Any effect but the sending of a handshake. *)
Definition not_handshake (e : effect) : bool :=
  match e with
  | AiSend frame => negb (is_handshake frame)
  | _ => true
  end.

(** The AI socket is not open and will not open any more. *)
Definition shut (s : session) : Prop :=
  awaitingSignedUrl s = false
  /\ (elevenLabsWs s = None \/ elevenLabsWs s = Some CLOSING
      \/ elevenLabsWs s = Some CLOSED).

(** The address is awaited, or the socket is connecting. *)
Definition unopened (s : session) : Prop :=
  (awaitingSignedUrl s = true /\ elevenLabsWs s = None)
  \/ (awaitingSignedUrl s = false /\ elevenLabsWs s = Some CONNECTING).

Definition no_handshake (frames : list value) : bool :=
  forallb (fun f => negb (is_handshake f)) frames.

Definition no_user_audio (frames : list value) : bool :=
  forallb (fun f => negb (is_user_audio f)) frames.

End Terms2.

Module SpeechTerms.
Import ProcessSpeech.

(** While the route is suspended in [getSignedUrl] it has no socket and no
    timer. *)
Definition pending_fetch (q : request) : Prop :=
  awaitingSignedUrl q = true -> ws q = None /\ timerArmed q = false.

(** How many replies a request can still give. *)
Definition replies_left (q : request) : nat :=
  if awaitingSignedUrl q then 1 else if replied q then 0 else 1.

(** The request is answered, or its timer is set. *)
Definition will_reply (q : request) : Prop :=
  awaitingSignedUrl q = false
  /\ (replied q = true \/ (timerArmed q = true /\ ws q <> None)).

Definition is_Fetched (e : event) : bool :=
  match e with
  | Fetched _ _ => true
  | _ => false
  end.

End SpeechTerms.

Module RouteTerms.
Import Routes.

Definition is_send (a : action) : bool :=
  match a with
  | SendJson _ _ | SendXml _ => true
  | _ => false
  end.

(** The numbers called. *)
Definition callees (acts : list action) : list value :=
  flat_map (fun a => match a with
                     | CallsCreate _ to _ _ _ => [to]
                     | _ => []
                     end) acts.

End RouteTerms.

(** * Properties *)

Import Base64 Relay Terms.

Ltac Zify.zify_post_hook ::= Z.to_euclidean_division_equations.

(** ** Tactics for running a handler *)

Ltac js_unfold :=
  unfold exec, idle, try_catch, JSON_parse, get, skip, emit, read, write, throw,
    elevenLabs_send, elevenLabs_close, twilio_send, Buffer_reencode,
    getSignedUrl, ProcessSpeech.ws_send, ProcessSpeech.ws_close,
    ProcessSpeech.resolve, ProcessSpeech.reject, ProcessSpeech.on_failure,
    ProcessSpeech.first_audio, template, interpolate in *;
  cbn [bind ret Monad_js] in *;
  unfold js_bind, js_ret in *.

Ltac js_atom x :=
  lazymatch x with
  | context [match _ with _ => _ end] => fail
  | context [js_bind] => fail
  | _ => idtac
  end.

Ltac js_case :=
  match goal with
  | H : ?x = _ |- context [match ?x with _ => _ end] => rewrite H
  | H : ?x = _ |- context [if ?x then _ else _] => rewrite H
  | |- context [match ?x with _ => _ end] => js_atom x; destruct x eqn:?
  | |- context [if ?b then _ else _] => js_atom b; destruct b eqn:?
  end.

Ltac js_crunch := repeat (js_unfold; cbn; try js_case).

Ltac js_bools :=
  repeat match goal with
  | H : _ || _ = true |- _ => apply Bool.orb_true_iff in H; destruct H
  | H : _ || _ = false |- _ => apply Bool.orb_false_iff in H; destruct H
  end.

Ltac js_done :=
  try reflexivity; try lia; try (cbn in *; congruence);
  try (js_bools; cbn in *; congruence).

(** ** Values *)

Lemma truthy_opt_member v k :
  truthy (opt_member v k) = true -> member v k = Some (opt_member v k).
Proof.
  unfold opt_member. destruct (member v k); [reflexivity | discriminate].
Qed.

Lemma member_opt_member v k x : member v k = Some x -> opt_member v k = x.
Proof. unfold opt_member. now intros ->. Qed.

(** A value that has one member has every member: only [null] and
    [undefined] refuse. *)
Lemma member_some v k x k' : member v k = Some x -> exists y, member v k' = Some y.
Proof. destruct v; cbn; intros H; try discriminate; eauto. Qed.

(** ** Base64 *)

Example encode_ABC : encode ["A"%byte; "B"%byte; "C"%byte] = "QUJD".
Proof. reflexivity. Qed.

Example decode_QUJD : decode "QUJD" = ["A"%byte; "B"%byte; "C"%byte].
Proof. reflexivity. Qed.

Example encode_def : encode ["d"%byte; "e"%byte; "f"%byte] = "ZGVm".
Proof. reflexivity. Qed.

(** A string that is not the encoding of its bytes comes back changed. *)
Example reencode_unpadded : encode (decode "QQ") = "QQ==".
Proof. reflexivity. Qed.

Lemma sextet_cases (P : N -> Prop) :
  (forall k, (k < 64)%nat -> P (N.of_nat k)) -> forall n, (n < 64)%N -> P n.
Proof.
  intros H n Hn. rewrite <- (N2Nat.id n). apply H. lia.
Qed.

Lemma unbase64_b64char n : (n < 64)%N -> unbase64 (b64char n) = Some n.
Proof.
  revert n. apply sextet_cases. intros k Hk.
  do 64 (destruct k as [|k]; [reflexivity|]). lia.
Qed.

Lemma b64char_not_pad n : (n < 64)%N -> Ascii.eqb (b64char n) "="%char = false.
Proof.
  revert n. apply sextet_cases. intros k Hk.
  do 64 (destruct k as [|k]; [reflexivity|]). lia.
Qed.

(** A character of this file's strings is its own low byte. *)
Lemma low_byte_of_ascii c : low_byte (N_of_ascii c) = c.
Proof.
  unfold low_byte. rewrite N.mod_small by apply N_ascii_bounded.
  apply ascii_N_embedding.
Qed.

Lemma sextets_b64char n (rest : string) :
  (n < 64)%N -> sextets (String (b64char n) rest) = n :: sextets rest.
Proof.
  intros Hn. cbn [sextets of_string]. rewrite low_byte_of_ascii.
  rewrite (b64char_not_pad n Hn), (unbase64_b64char n Hn). reflexivity.
Qed.

Lemma sextets_pad (rest : string) : sextets (String "="%char rest) = [].
Proof. reflexivity. Qed.

Lemma byte_of_to_N x n : n = Byte.to_N x -> byte_of n = x.
Proof.
  intros ->. unfold byte_of.
  pose proof (Byte.to_N_bounded x) as Hb.
  rewrite N.mod_small by lia. now rewrite Byte.of_to_N.
Qed.

(** Decoding undoes encoding; the induction goes three bytes at a time. *)
Lemma decode_encode bs : decode (encode bs) = bs.
Proof.
  enough (H : decode (encode bs) = bs
              /\ (forall x, decode (encode (x :: bs)) = x :: bs)
              /\ (forall x y, decode (encode (x :: y :: bs)) = x :: y :: bs))
    by apply H.
  induction bs as [|z bs (IH0 & IH1 & IH2)].
  - split; [reflexivity|]. split.
    + intros x. pose proof (Byte.to_N_bounded x).
      unfold decode. cbn [encode].
      rewrite !sextets_b64char by lia. rewrite sextets_pad. cbn [pack].
      f_equal. apply byte_of_to_N. lia.
    + intros x y.
      pose proof (Byte.to_N_bounded x). pose proof (Byte.to_N_bounded y).
      unfold decode. cbn [encode].
      rewrite !sextets_b64char by lia. rewrite sextets_pad. cbn [pack].
      f_equal; [|f_equal]; apply byte_of_to_N; lia.
  - split; [apply IH1|]. split; [intros x; apply IH2|].
    intros x y.
    pose proof (Byte.to_N_bounded x). pose proof (Byte.to_N_bounded y).
    pose proof (Byte.to_N_bounded z).
    unfold decode in *. cbn [encode].
    rewrite !sextets_b64char by lia. cbn [pack]. rewrite IH0.
    f_equal; [|f_equal; [|f_equal]]; apply byte_of_to_N; lia.
Qed.

(** The decoder reads a unit as its low byte. *)
Lemma decode_low_byte (s : jsstring) :
  decode (map (fun u => u mod 256)%N s) = decode s.
Proof.
  unfold decode. f_equal.
  induction s as [|u s IH]; [reflexivity|].
  cbn [map sextets]. unfold low_byte.
  rewrite N.Div0.mod_mod, IH. reflexivity.
Qed.

(** The decoder reads a unit above 0xFF as its low byte: U+0141 U+0151
    U+013D U+013D is read as AQ==. *)
Example decode_low_bytes : decode [321; 337; 317; 317]%N = decode "AQ==".
Proof. reflexivity. Qed.

(** [Buffer.from(s, "base64").toString("base64")] gives back a string that
    is the base64 encoding of some bytes. *)
Lemma reencode_encoded bs : encode (decode (encode bs)) = encode bs.
Proof. now rewrite decode_encode. Qed.
(** ** Telephony media frames *)

(** C4, as the code has it: a Media frame whose payload is a string,
    arriving while the AI socket is open, is answered by exactly one
    user-audio-chunk message, whose only member is the standard base64
    encoding of the bytes the payload decodes to.  That is the payload
    itself when the payload is such an encoding, and another string
    otherwise.  While the AI socket is not open the frame changes nothing
    and sends nothing. *)
Theorem C4_media_forwarded_reencoded {runtime : Runtime}
    (s : session) (msg media : value) (payload : jsstring) :
  ws s = OPEN ->
  member msg "event" = Some (VStr "media") ->
  member msg "media" = Some media ->
  member media "payload" = Some (VStr payload) ->
  (elevenLabsWs s = Some OPEN ->
   step s (TelMessage (Some msg))
   = (s, [AiSend (VObj [("user_audio_chunk",
                         VStr (encode (decode payload)))])]))
  /\ (forall bs : list byte,
        payload = encode bs ->
        elevenLabsWs s = Some OPEN ->
        step s (TelMessage (Some msg))
        = (s, [AiSend (VObj [("user_audio_chunk", VStr payload)])]))
  /\ (elevenLabsWs s <> Some OPEN ->
      step s (TelMessage (Some msg)) = (s, [])).
Proof.
  intros Htel Hevent Hmedia Hpayload.
  assert (Hopen : elevenLabsWs s = Some OPEN ->
                  step s (TelMessage (Some msg))
                  = (s, [AiSend (VObj [("user_audio_chunk",
                                        VStr (encode (decode payload)))])])).
  { intros Hai. unfold step, on_twilio_message, elevenLabs_is_open.
    rewrite Htel. js_crunch; js_done. }
  split; [exact Hopen|]. split.
  - intros bs Hbs Hai. rewrite (Hopen Hai). subst payload.
    now rewrite reencode_encoded.
  - intros Hai. unfold step, on_twilio_message, elevenLabs_is_open.
    rewrite Htel. js_crunch; js_done.
Qed.

Lemma C4_media_QUJD_witness :
  step opened (TelMessage (Some media_QUJD))
  = (opened, [AiSend (VObj [("user_audio_chunk", VStr "QUJD")])]).
Proof.
  destruct (C4_media_forwarded_reencoded opened media_QUJD
              (VObj [("payload", VStr "QUJD")]) "QUJD"
              eq_refl eq_refl eq_refl eq_refl)
    as (_ & Hsame & _).
  exact (Hsame ["A"%byte; "B"%byte; "C"%byte] eq_refl eq_refl).
Defined.

(** The claim C4 fails for a payload that is not the standard encoding of
    its bytes: without its padding, or with spare bits set in its last
    character, it goes out changed. *)
Lemma C4_payload_changed :
  step opened (TelMessage (Some (media_of "QQ")))
  = (opened, [AiSend (VObj [("user_audio_chunk", VStr "QQ==")])])
  /\ step opened (TelMessage (Some (media_of "QR==")))
     = (opened, [AiSend (VObj [("user_audio_chunk", VStr "QQ==")])])
  /\ VStr "QQ==" <> VStr "QQ"
  /\ VStr "QQ==" <> VStr "QR==".
Proof. repeat split; try reflexivity; discriminate. Qed.

(** ** Keepalive *)

(** C5, as the code has it: a ping whose event identifier is truthy is
    answered by exactly one pong carrying that identifier; it is the only
    effect of the message and nothing goes to the telephony socket. *)
Theorem C5_truthy_ping_answered_once {runtime : Runtime} (s : session) (message ping_event : value) :
  elevenLabsWs s = Some OPEN ->
  member message "type" = Some (VStr "ping") ->
  member message "ping_event" = Some ping_event ->
  truthy (opt_member ping_event "event_id") = true ->
  step s (AiMessage (Some message))
  = (s, [AiSend (pong_frame (opt_member ping_event "event_id"))]).
Proof.
  intros Hai Htype Hping Hid.
  pose proof (truthy_opt_member _ _ Hid) as Hmem.
  unfold step, on_elevenlabs_message. rewrite Hai.
  js_crunch; js_done.
Qed.

Lemma C5_ping_7_witness :
  step opened (AiMessage (Some (ping_of (VNum 7))))
  = (opened, [AiSend (pong_frame (VNum 7))]).
Proof.
  apply (C5_truthy_ping_answered_once opened (ping_of (VNum 7))
           (VObj [("event_id", VNum 7)]) eq_refl eq_refl eq_refl eq_refl).
Defined.

(** The claim C5 fails for the event identifier 0: no pong is sent. *)
Lemma C5_ping_0_unanswered :
  step opened (AiMessage (Some (ping_of (VNum 0)))) = (opened, []).
Proof. reflexivity. Qed.

(** C10: a ping whose event identifier is absent or falsy is answered by
    nothing: no effect at all, and the session is as before. *)
Theorem C10_falsy_ping_ignored {runtime : Runtime} (s : session) (message ping_event : value) :
  elevenLabsWs s = Some OPEN ->
  member message "type" = Some (VStr "ping") ->
  member message "ping_event" = Some ping_event ->
  truthy (opt_member ping_event "event_id") = false ->
  step s (AiMessage (Some message)) = (s, []).
Proof.
  intros Hai Htype Hping Hid.
  unfold step, on_elevenlabs_message. rewrite Hai.
  js_crunch; js_done.
Qed.

Lemma C10_ping_without_id_witness :
  step opened (AiMessage (Some (VObj [("type", VStr "ping")]))) = (opened, [])
  /\ step opened (AiMessage (Some (ping_of (VNum 0)))) = (opened, [])
  /\ step opened (AiMessage (Some (ping_of (VStr "")))) = (opened, []).
Proof.
  split; [|split].
  - apply (C10_falsy_ping_ignored opened (VObj [("type", VStr "ping")])
             VUndefined eq_refl eq_refl eq_refl eq_refl).
  - apply (C10_falsy_ping_ignored opened (ping_of (VNum 0))
             (VObj [("event_id", VNum 0)]) eq_refl eq_refl eq_refl eq_refl).
  - apply (C10_falsy_ping_ignored opened (ping_of (VStr ""))
             (VObj [("event_id", VStr "")]) eq_refl eq_refl eq_refl eq_refl).
Defined.
(** ** Runs *)

Lemma run_cons {runtime : Runtime} s e es :
  run s (e :: es)
  = (fst (run (fst (step s e)) es), snd (step s e) ++ snd (run (fst (step s e)) es)).
Proof.
  cbn [run]. destruct (step s e) as [s1 out1]. cbn [fst snd].
  destruct (run s1 es) as [s2 out2]. reflexivity.
Qed.


Lemma visible_app out1 out2 : visible (out1 ++ out2) = visible out1 ++ visible out2.
Proof. apply filter_app. Qed.


(** ** Routing of AI events *)

(** C7: an AI audio or interruption message that comes while the stream
    identifier is not known leaves the session as it is, sends no frame,
    logs no error, and is not kept: the run goes on as if it had not come. *)
Theorem C7_unrouted_ai_event_dropped {runtime : Runtime}
    (s : session) (message : value) (es : list event) :
  elevenLabsWs s = Some OPEN ->
  truthy (streamSid s) = false ->
  member message "type" = Some (VStr "audio")
  \/ member message "type" = Some (VStr "interruption") ->
  fst (step s (AiMessage (Some message))) = s
  /\ (snd (step s (AiMessage (Some message)))
      = [Console Log "[ElevenLabs] Received audio but no StreamSid yet" []]
      \/ snd (step s (AiMessage (Some message))) = [])
  /\ fst (run s (AiMessage (Some message) :: es)) = fst (run s es)
  /\ visible (snd (run s (AiMessage (Some message) :: es)))
     = visible (snd (run s es)).
Proof.
  intros Hai Hsid Htype.
  assert (Hstep : fst (step s (AiMessage (Some message))) = s
          /\ (snd (step s (AiMessage (Some message)))
              = [Console Log "[ElevenLabs] Received audio but no StreamSid yet" []]
              \/ snd (step s (AiMessage (Some message))) = [])).
  { unfold step, on_elevenlabs_message. rewrite Hai.
    destruct Htype as [Htype | Htype]; js_crunch; auto; js_done. }
  destruct Hstep as [Hstate Hout].
  repeat split; try assumption.
  - rewrite run_cons. cbn [fst]. now rewrite Hstate.
  - rewrite run_cons. cbn [snd]. rewrite visible_app, Hstate.
    destruct Hout as [-> | ->]; reflexivity.
Qed.

Lemma C7_audio_before_start_witness :
  fst (run opened [AiMessage (Some (audio_of (VStr "ZGVm")));
                   TelMessage (Some start_MZ1)])
  = fst (run opened [TelMessage (Some start_MZ1)])
  /\ visible (snd (run opened [AiMessage (Some (audio_of (VStr "ZGVm")));
                               TelMessage (Some start_MZ1)]))
     = visible (snd (run opened [TelMessage (Some start_MZ1)])).
Proof.
  refine (proj2 (proj2 (C7_unrouted_ai_event_dropped opened (audio_of (VStr "ZGVm"))
           [TelMessage (Some start_MZ1)] eq_refl eq_refl (or_introl eq_refl)))).
Defined.
(** ** The Start frame *)

(** What the "start" case does, whatever the values are: the three
    variables are assigned and nothing goes out on a socket. *)
Lemma start_assigns {runtime : Runtime} (s : session) (msg start sid cid params : value) :
  ws s = OPEN ->
  member msg "event" = Some (VStr "start") ->
  member msg "start" = Some start ->
  member start "streamSid" = Some sid ->
  member start "callSid" = Some cid ->
  member start "customParameters" = Some params ->
  fst (step s (TelMessage (Some msg)))
  = set_customParameters params (set_callSid cid (set_streamSid sid s))
  /\ visible (snd (step s (TelMessage (Some msg)))) = [].
Proof.
  intros Htel Hevent Hstart Hsid Hcid Hparams.
  unfold step, on_twilio_message. rewrite Htel.
  js_crunch; split; js_done.
Qed.

(** When the two identifiers can be written into the log line, three lines
    are logged. *)
Lemma start_captured {runtime : Runtime} (s : session) (msg start sid cid params : value) :
  ws s = OPEN ->
  member msg "event" = Some (VStr "start") ->
  member msg "start" = Some start ->
  member start "streamSid" = Some sid ->
  member start "callSid" = Some cid ->
  member start "customParameters" = Some params ->
  to_string_throws sid = false ->
  to_string_throws cid = false ->
  step s (TelMessage (Some msg))
  = (set_customParameters params (set_callSid cid (set_streamSid sid s)),
     [Console Log "[Twilio] Received event: ${msg.event}" [VStr "start"];
      Console Log
        "[Twilio] Stream started - StreamSid: ${streamSid}, CallSid: ${callSid}"
        [sid; cid];
      Console Log "[Twilio] Start parameters:" [params]]).
Proof.
  intros Htel Hevent Hstart Hsid Hcid Hparams Hpsid Hpcid.
  unfold step, on_twilio_message. rewrite Htel.
  js_crunch; js_done.
Qed.

(** Only a Start frame assigns [streamSid]. *)
Lemma step_keeps_streamSid {runtime : Runtime} (s : session) (e : event) :
  is_start e = false -> streamSid (fst (step s e)) = streamSid s.
Proof.
  intros Hstart. destruct s as [sid cid sock params tel aw].
  destruct e as [r acc| |data| | |data| |];
    unfold step, on_elevenlabs_open, initialConfig, handshake,
      on_elevenlabs_message, on_elevenlabs_error, on_elevenlabs_close,
      setupElevenLabs, on_twilio_message, on_twilio_close, on_twilio_error,
      elevenLabs_is_open;
    js_crunch; js_done.
  all: unfold is_start, opt_member in Hstart;
    match goal with
    | H : member _ "event" = Some _ |- _ => rewrite H in Hstart
    end; congruence.
Qed.

Lemma run_keeps_streamSid {runtime : Runtime} (es : list event) :
  forall s, forallb (fun e => negb (is_start e)) es = true ->
            streamSid (fst (run s es)) = streamSid s.
Proof.
  induction es as [|e es IH]; intros s Hes; [reflexivity|].
  cbn [forallb] in Hes. apply andb_prop in Hes as [He Hes].
  rewrite run_cons. cbn [fst]. rewrite (IH _ Hes).
  apply step_keeps_streamSid. now destruct (is_start e).
Qed.

(** An audio message with a payload, once the stream identifier is known,
    gives one media frame with that identifier and that payload. *)
Lemma audio_routed {runtime : Runtime} (s : session) (message : value) :
  elevenLabsWs s = Some OPEN ->
  truthy (streamSid s) = true ->
  member message "type" = Some (VStr "audio") ->
  truthy (audio_payload message) = true ->
  step s (AiMessage (Some message))
  = (s, [TelSend (media_frame (streamSid s) (audio_payload message))]).
Proof.
  intros Hai Hsid Htype Hpay.
  unfold step, on_elevenlabs_message. rewrite Hai.
  unfold audio_payload, or_else in *.
  destruct (member_some _ _ _ "audio" Htype) as [audio Haudio].
  destruct (member_some _ _ _ "audio_event" Htype) as [audio_event Hevent].
  rewrite (member_opt_member _ _ _ Haudio) in *.
  rewrite (member_opt_member _ _ _ Hevent) in *.
  destruct (truthy (opt_member audio "chunk")) eqn:Hchunk.
  - pose proof (truthy_opt_member _ _ Hchunk). js_crunch; js_done.
  - pose proof (truthy_opt_member _ _ Hpay). js_crunch; js_done.
Qed.

(** C6, as the code has it: after a Start frame with a truthy stream
    identifier the session holds that identifier, keeps it as long as no
    other Start frame comes, and every AI audio message with a non-empty
    payload then gives exactly one media frame with that identifier and
    that payload. *)
Theorem C6_audio_chunk_routed_after_start {runtime : Runtime}
    (s : session) (msg start sid : value) (es : list event) (message : value) :
  ws s = OPEN ->
  member msg "event" = Some (VStr "start") ->
  member msg "start" = Some start ->
  member start "streamSid" = Some sid ->
  truthy sid = true ->
  forallb (fun e => negb (is_start e)) es = true ->
  elevenLabsWs (fst (run s (TelMessage (Some msg) :: es))) = Some OPEN ->
  member message "type" = Some (VStr "audio") ->
  truthy (audio_payload message) = true ->
  streamSid (fst (step s (TelMessage (Some msg)))) = sid
  /\ step (fst (run s (TelMessage (Some msg) :: es))) (AiMessage (Some message))
     = (fst (run s (TelMessage (Some msg) :: es)),
        [TelSend (media_frame sid (audio_payload message))]).
Proof.
  intros Htel Hevent Hstart Hsid Htruthy Hes Hai Htype Hpay.
  destruct (member_some _ _ _ "callSid" Hsid) as [cid Hcid].
  destruct (member_some _ _ _ "customParameters" Hsid) as [params Hparams].
  destruct (start_assigns s msg start sid cid params
              Htel Hevent Hstart Hsid Hcid Hparams) as [Hstep _].
  assert (Hkept : streamSid (fst (run s (TelMessage (Some msg) :: es))) = sid).
  { rewrite run_cons. cbn [fst]. rewrite (run_keeps_streamSid es _ Hes).
    now rewrite Hstep. }
  split; [now rewrite Hstep|].
  pose proof (audio_routed _ message Hai) as Hrouted.
  rewrite Hkept in Hrouted. now apply Hrouted.
Qed.

Lemma C6_scenario_3_witness :
  streamSid (fst (step opened (TelMessage (Some start_MZ1)))) = VStr "MZ1"
  /\ step (fst (run opened [TelMessage (Some start_MZ1);
                            TelMessage (Some media_QUJD)]))
          (AiMessage (Some (audio_of (VStr "ZGVm"))))
     = (fst (run opened [TelMessage (Some start_MZ1);
                         TelMessage (Some media_QUJD)]),
        [TelSend (media_frame (VStr "MZ1") (VStr "ZGVm"))]).
Proof.
  apply (C6_audio_chunk_routed_after_start opened start_MZ1
           (VObj [("streamSid", VStr "MZ1"); ("callSid", VStr "CA1");
                  ("customParameters",
                   VObj [("prompt", VStr "p"); ("first_message", VStr "hi")])])
           (VStr "MZ1") [TelMessage (Some media_QUJD)]
           (audio_of (VStr "ZGVm"))
           eq_refl eq_refl eq_refl eq_refl eq_refl eq_refl eq_refl eq_refl eq_refl).
Defined.

(** The claim C6 fails for an audio message whose payload is the empty
    string: after the Start frame no media frame is sent for it. *)
Lemma C6_empty_chunk_not_forwarded :
  streamSid started = VStr "MZ1"
  /\ step started (AiMessage (Some (audio_of (VStr "")))) = (started, []).
Proof. split; reflexivity. Qed.
(** ** The handshake *)

(** The "open" handler sends the configuration built from the parameters
    held at that time, and nothing else. *)
Lemma open_sends_initialConfig {runtime : Runtime} (s : session) :
  elevenLabsWs s = Some CONNECTING ->
  visible (snd (step s AiOpened)) = [AiSend (initialConfig (customParameters s))]
  /\ elevenLabsWs (fst (step s AiOpened)) = Some OPEN.
Proof.
  intros Hai. unfold step, on_elevenlabs_open. rewrite Hai.
  unfold initialConfig, handshake. js_crunch; js_done. now split.
Qed.

(** Only a Start frame assigns [customParameters]. *)
Lemma step_keeps_customParameters {runtime : Runtime} (s : session) (e : event) :
  is_start e = false -> customParameters (fst (step s e)) = customParameters s.
Proof.
  intros Hstart. destruct s as [sid cid sock params tel aw].
  destruct e as [r acc| |data| | |data| |];
    unfold step, on_elevenlabs_open, initialConfig, handshake,
      on_elevenlabs_message, on_elevenlabs_error, on_elevenlabs_close,
      setupElevenLabs, on_twilio_message, on_twilio_close, on_twilio_error,
      elevenLabs_is_open;
    js_crunch; js_done.
  all: unfold is_start, opt_member in Hstart;
    match goal with
    | H : member _ "event" = Some _ |- _ => rewrite H in Hstart
    end; congruence.
Qed.

Lemma run_keeps_customParameters {runtime : Runtime} (es : list event) :
  forall s, forallb (fun e => negb (is_start e)) es = true ->
            customParameters (fst (run s es)) = customParameters s.
Proof.
  induction es as [|e es IH]; intros s Hes; [reflexivity|].
  cbn [forallb] in Hes. apply andb_prop in Hes as [He Hes].
  rewrite run_cons. cbn [fst]. rewrite (IH _ Hes).
  apply step_keeps_customParameters. now destruct (is_start e).
Qed.

(** No handler begins a connect to the AI. *)
Lemma step_never_fetches {runtime : Runtime} (s : session) (e : event) :
  filter is_fetch (snd (step s e)) = [].
Proof.
  destruct s as [sid cid sock params tel aw].
  destruct e as [r acc| |data| | |data| |];
    unfold step, on_elevenlabs_open, initialConfig, handshake,
      on_elevenlabs_message, on_elevenlabs_error, on_elevenlabs_close,
      setupElevenLabs, on_twilio_message, on_twilio_close, on_twilio_error,
      elevenLabs_is_open;
    js_crunch; js_done.
Qed.

Lemma run_never_fetches {runtime : Runtime} (es : list event) :
  forall s, filter is_fetch (snd (run s es)) = [].
Proof.
  induction es as [|e es IH]; intros s; [reflexivity|].
  rewrite run_cons. cbn [snd].
  now rewrite filter_app, step_never_fetches, IH.
Qed.

(** C3, as the code has it: a Start frame assigns the stream identifier, the
    call identifier and the parameters and sends nothing.  The connect to
    the AI is begun once in a session, when the telephony connection is
    accepted, and by no event after that.  When the AI socket opens, after
    the Start frame and any events that are not Start frames, the handshake
    is sent with the parameters of that Start frame, each replaced by its
    default when absent or falsy: with prompt p and opening utterance hi
    when the Start frame had these. *)
Theorem C3_start_captured_handshake_at_open {runtime : Runtime}
    (s : session) (msg start sid cid params : value) (es : list event) :
  ws s = OPEN ->
  member msg "event" = Some (VStr "start") ->
  member msg "start" = Some start ->
  member start "streamSid" = Some sid ->
  member start "callSid" = Some cid ->
  member start "customParameters" = Some params ->
  forallb (fun e => negb (is_start e)) es = true ->
  elevenLabsWs (fst (run s (TelMessage (Some msg) :: es))) = Some CONNECTING ->
  fst (step s (TelMessage (Some msg)))
  = set_customParameters params (set_callSid cid (set_streamSid sid s))
  /\ visible (snd (step s (TelMessage (Some msg)))) = []
  /\ (forall es' : list event,
        filter is_fetch (on_connection ++ snd (run connected es'))
        = [FetchSignedUrl])
  /\ visible (snd (step (fst (run s (TelMessage (Some msg) :: es))) AiOpened))
     = [AiSend (handshake
                  (or_else (opt_member params "prompt")
                           (VStr "you are a gary from the phone store"))
                  (or_else (opt_member params "first_message")
                           (VStr "hey there! how can I help you today?")))]
  /\ (opt_member params "prompt" = VStr "p" ->
      opt_member params "first_message" = VStr "hi" ->
      visible (snd (step (fst (run s (TelMessage (Some msg) :: es))) AiOpened))
      = [AiSend
           (VObj [("type", VStr "conversation_initiation_client_data");
                  ("conversation_config_override",
                   VObj [("agent",
                     VObj [("prompt", VObj [("prompt", VStr "p")]);
                           ("first_message", VStr "hi")])])])]).
Proof.
  intros Htel Hevent Hstart Hsid Hcid Hparams Hes Hai.
  destruct (start_assigns s msg start sid cid params
              Htel Hevent Hstart Hsid Hcid Hparams) as [Hstate Hquiet].
  assert (Hheld : customParameters (fst (run s (TelMessage (Some msg) :: es)))
                  = params).
  { rewrite run_cons. cbn [fst]. rewrite (run_keeps_customParameters es _ Hes).
    now rewrite Hstate. }
  destruct (open_sends_initialConfig _ Hai) as [Hopen _].
  rewrite Hheld in Hopen.
  split; [exact Hstate|]. split; [exact Hquiet|]. split; [|split].
  - intros es'. rewrite filter_app, run_never_fetches. reflexivity.
  - exact Hopen.
  - intros Hp Hf. rewrite Hopen. unfold initialConfig. now rewrite Hp, Hf.
Qed.

Lemma C3_scenario_1_witness :
  visible (snd (step (fst (run connected [TelMessage (Some start_MZ1);
                                          Fetched signed true]))
                     AiOpened))
  = [AiSend
       (VObj [("type", VStr "conversation_initiation_client_data");
              ("conversation_config_override",
               VObj [("agent",
                 VObj [("prompt", VObj [("prompt", VStr "p")]);
                       ("first_message", VStr "hi")])])])].
Proof.
  destruct (C3_start_captured_handshake_at_open
              connected start_MZ1
              (VObj [("streamSid", VStr "MZ1"); ("callSid", VStr "CA1");
                     ("customParameters",
                      VObj [("prompt", VStr "p"); ("first_message", VStr "hi")])])
              (VStr "MZ1") (VStr "CA1")
              (VObj [("prompt", VStr "p"); ("first_message", VStr "hi")])
              [Fetched signed true]
              eq_refl eq_refl eq_refl eq_refl eq_refl eq_refl eq_refl eq_refl)
    as (_ & _ & _ & _ & Hscenario).
  exact (Hscenario eq_refl eq_refl).
Defined.

(** The claim C3 fails when the AI socket opens before the Start frame: the
    handshake went out with the default prompt and utterance, and the Start
    frame with prompt p and utterance hi begins no connect and sends no
    handshake. *)
Lemma C3_start_after_open_sends_defaults :
  visible (on_connection
           ++ snd (run connected [Fetched signed true; AiOpened;
                                  TelMessage (Some start_MZ1)]))
  = [FetchSignedUrl;
     AiSend (handshake (VStr "you are a gary from the phone store")
                       (VStr "hey there! how can I help you today?"))]
  /\ visible (snd (step opened (TelMessage (Some start_MZ1)))) = [].
Proof. split; reflexivity. Qed.
(** ** Closing *)

Ltac relay_unfold :=
  unfold step, on_elevenlabs_open, initialConfig, handshake,
    on_elevenlabs_message, on_elevenlabs_error, on_elevenlabs_close,
    setupElevenLabs, on_twilio_message, on_twilio_close, on_twilio_error,
    elevenLabs_is_open.

(** The handlers that run outside a [try] complete normally, and so does
    every handler that catches: the event loop never sees an exception. *)
Lemma open_completes (s : session) :
  elevenLabsWs s <> None ->
  fst (fst (on_elevenlabs_open s)) = Normal tt.
Proof.
  intros Hsock. unfold on_elevenlabs_open, initialConfig, handshake.
  js_crunch; js_done.
Qed.

Lemma twilio_close_completes (s : session) :
  fst (fst (on_twilio_close s)) = Normal tt.
Proof.
  unfold on_twilio_close, elevenLabs_is_open. js_crunch; js_done.
Qed.


Lemma elevenlabs_message_completes (data : option value) (s : session) :
  fst (fst (on_elevenlabs_message data s)) = Normal tt.
Proof.
  unfold on_elevenlabs_message. js_crunch; js_done.
Qed.












(** ** Failure to set up the AI socket *)

(** [fetch_throws] says when [getSignedUrl] throws. *)
Lemma getSignedUrl_throws {S : Type} (r : fetch_result) (s : S) :
  fetch_throws r = true ->
  exists e, getSignedUrl r s = (Thrown e, s, [ConsoleError "Error getting signed URL:" e]).
Proof.
  unfold fetch_throws. intros Hr.
  destruct r as [|[] [data|]]; cbn in Hr; try discriminate;
    try (destruct (member data "signed_url") eqn:Hurl; try discriminate);
    unfold getSignedUrl; js_crunch; eauto; js_done.
Qed.

Lemma getSignedUrl_returns {S : Type} (r : fetch_result) (s : S) :
  fetch_throws r = false ->
  exists signedUrl, getSignedUrl r s = (Normal signedUrl, s, []).
Proof.
  unfold fetch_throws. intros Hr.
  destruct r as [|[] [data|]]; cbn in Hr; try discriminate.
  destruct (member data "signed_url") eqn:Hurl; try discriminate.
  unfold getSignedUrl; js_crunch; eauto.
Qed.






(** ** The timeout of [/process-speech] *)

(** In this section [request], [event], [step], [run] and the fields [ws],
    [awaitingSignedUrl] are those of [ProcessSpeech]. *)
Section Timeout.
Import ProcessSpeech.

Ltac speech_unfold :=
  unfold step, on_fetched, on_open, on_message, on_error, on_timeout, resume.

Lemma speech_run_cons q e es :
  run q (e :: es)
  = (fst (run (fst (step q e)) es),
     snd (step q e) ++ snd (run (fst (step q e)) es)).
Proof.
  cbn [run]. destruct (step q e) as [q1 out1]. cbn [fst snd].
  destruct (run q1 es) as [q2 out2]. reflexivity.
Qed.

(** When the fetch gives an address and the socket is constructed, the
    route sets its timer and waits. *)
Lemma speech_timer_set (speech : value) (r : fetch_result) :
  fetch_throws r = false ->
  step (received speech) (Fetched r true)
  = (mkRequest speech (Some CONNECTING) VNull Pending false true false,
     [SetTimeout 10000]).
Proof.
  intros Hr. unfold step, on_fetched, received.
  cbn [awaitingSignedUrl].
  destruct (getSignedUrl_returns r
              (set_awaitingSignedUrl false
                 (mkRequest speech None VNull Pending true false false)) Hr)
    as [url Hurl].
  unfold exec, try_catch. cbn [bind Monad_js]. unfold js_bind.
  rewrite Hurl. reflexivity.
Qed.

(** After the reply nothing more is replied. *)
Lemma speech_replied_step (q : request) (e : event) :
  awaitingSignedUrl q = false ->
  replied q = true ->
  awaitingSignedUrl (fst (step q e)) = false
  /\ replied (fst (step q e)) = true
  /\ filter is_Reply (snd (step q e)) = [].
Proof.
  destruct q as [speech sock audio p aw armed done]. cbn. intros -> ->.
  destruct e as [r acc| |data| | |]; speech_unfold; js_crunch; auto; js_done.
Qed.

Lemma speech_replied_run (es : list event) :
  forall q, awaitingSignedUrl q = false -> replied q = true ->
            filter is_Reply (snd (run q es)) = [].
Proof.
  induction es as [|e es IH]; intros q Haw Hdone; [reflexivity|].
  destruct (speech_replied_step q e Haw Hdone) as (Haw' & Hdone' & Hquiet).
  rewrite speech_run_cons. cbn [snd].
  now rewrite filter_app, Hquiet, (IH _ Haw' Hdone').
Qed.

(** C9: the route sets a timer of 10000 ms when it starts to wait for the
    first audio; when the timer fires while the promise is pending, the
    socket is closed, the promise is rejected, and the route replies with
    the spoken error followed by a hangup; no other reply follows. *)
Theorem C9_timeout_gives_spoken_error
    (speech : value) (r : fetch_result)
    (q : request) (st : readyState) (es : list event) :
  fetch_throws r = false ->
  awaitingSignedUrl q = false ->
  ws q = Some st ->
  timerArmed q = true ->
  conversationPromise q = Pending ->
  replied q = false ->
  snd (step (received speech) (Fetched r true)) = [SetTimeout 10000]
  /\ step q TimerFired
     = (set_replied true
          (set_conversationPromise (Rejected ConversationTimeout)
             (set_ws (Some (after_close st)) (set_timerArmed false q))),
        [AiClose;
         ConsoleError "Error processing speech:" ConversationTimeout;
         Reply (SayThenHangup
                  "Sorry, there was an error processing your request.")])
  /\ filter is_Reply (snd (run (fst (step q TimerFired)) es)) = [].
Proof.
  intros Hr Haw Hsock Harmed Hpending Hdone.
  assert (Hfire : step q TimerFired
     = (set_replied true
          (set_conversationPromise (Rejected ConversationTimeout)
             (set_ws (Some (after_close st)) (set_timerArmed false q))),
        [AiClose;
         ConsoleError "Error processing speech:" ConversationTimeout;
         Reply (SayThenHangup
                  "Sorry, there was an error processing your request.")])).
  { destruct q as [speech' sock audio p aw armed done].
    cbn in Haw, Hsock, Harmed, Hpending, Hdone. subst.
    speech_unfold. js_crunch; js_done. }
  split; [now rewrite speech_timer_set|]. split; [exact Hfire|].
  rewrite Hfire. cbn [fst]. apply speech_replied_run; [|reflexivity].
  cbn. exact Haw.
Qed.

Lemma C9_timeout_witness :
  visible (snd (run (received (VStr "hello"))
                  [Fetched signed true; Opened; TimerFired;
                   Message (Some (audio_of (VStr "ZGVm")))]))
  = [SetTimeout 10000;
     AiSend (VObj [("type", VStr "conversation_initiation_client_data");
                   ("conversation_config_override",
                    VObj [("agent",
                      VObj [("prompt",
                        VObj [("prompt", VStr "you are a helpful AI assistant")])])])]);
     AiSend (VObj [("type", VStr "text"); ("text", VStr "hello")]);
     AiClose;
     Reply (SayThenHangup "Sorry, there was an error processing your request.");
     AiClose]
  /\ filter is_Reply
       (snd (run
               (fst (step (fst (run (received (VStr "hello"))
                                     [Fetched signed true; Opened]))
                       TimerFired))
               [Message (Some (audio_of (VStr "ZGVm")))]))
     = [].
Proof.
  split; [reflexivity|].
  apply (C9_timeout_gives_spoken_error (VStr "hello") signed
           (fst (run (received (VStr "hello"))
                   [Fetched signed true; Opened]))
           OPEN [Message (Some (audio_of (VStr "ZGVm")))]
           eq_refl eq_refl eq_refl eq_refl eq_refl eq_refl).
Defined.

End Timeout.

(** * Further properties of the relay *)

Import Terms2.

(** ** Single messages *)

(** X1: an interruption, once the stream identifier is known, gives exactly
    one clear frame with that identifier and no media frame; the session is
    unchanged. *)
Theorem X1_interruption_clears_once {runtime : Runtime} (s : session) (message : value) :
  elevenLabsWs s = Some OPEN ->
  truthy (streamSid s) = true ->
  member message "type" = Some (VStr "interruption") ->
  step s (AiMessage (Some message)) = (s, [TelSend (clear_frame (streamSid s))]).
Proof.
  intros Hai Hsid Htype. unfold step, on_elevenlabs_message. rewrite Hai.
  js_crunch; js_done.
Qed.

Lemma X1_interruption_witness :
  step started (AiMessage (Some interruption))
  = (started, [TelSend (clear_frame (VStr "MZ1"))]).
Proof.
  apply (X1_interruption_clears_once started interruption
           eq_refl eq_refl eq_refl).
Defined.

(** X2: a frame that does not parse, or that parses to [null], is reported
    by one error line on the socket it came from; nothing is sent or closed
    and the session is unchanged, so the frames after it are handled as if
    it had not come. *)
Theorem X2_malformed_frame_isolated {runtime : Runtime} (s : session) (data : option value) :
  elevenLabsWs s = Some OPEN ->
  ws s = OPEN ->
  data = None \/ data = Some VNull ->
  (exists e,
     step s (AiMessage data)
     = (s, [ConsoleError "[ElevenLabs] Error processing message:" e]))
  /\ (exists e,
        step s (TelMessage data)
        = (s, [ConsoleError "[Twilio] Error processing message:" e])).
Proof.
  intros Hai Htel Hdata.
  unfold step, on_elevenlabs_message, on_twilio_message. rewrite Hai, Htel.
  destruct Hdata as [-> | ->]; split; js_crunch; eauto.
Qed.

Lemma X2_malformed_frame_witness :
  (exists e,
     step started (AiMessage None)
     = (started, [ConsoleError "[ElevenLabs] Error processing message:" e]))
  /\ (exists e,
        step started (TelMessage None)
        = (started, [ConsoleError "[Twilio] Error processing message:" e])).
Proof.
  apply (X2_malformed_frame_isolated started None eq_refl eq_refl
           (or_introl eq_refl)).
Defined.

(** X3: no AI message ever changes the session, whatever it holds; and a
    message whose type is not audio, interruption or ping sends nothing on
    either socket. *)
Theorem X3_ai_messages_leave_session {runtime : Runtime} (s : session) (data : option value) :
  fst (step s (AiMessage data)) = s
  /\ (forall message type,
        data = Some message ->
        member message "type" = Some type ->
        acted_on type = false ->
        visible (snd (step s (AiMessage data))) = []).
Proof.
  split.
  - destruct s as [sid cid sock params tel aw].
    unfold step, on_elevenlabs_message. js_crunch; js_done.
  - intros message type -> Htype Hacted. unfold acted_on in Hacted.
    apply orb_false_elim in Hacted as [Hacted Hping].
    apply orb_false_elim in Hacted as [Haudio Hint].
    destruct s as [sid cid sock params tel aw].
    unfold step, on_elevenlabs_message. js_crunch; js_done.
Qed.

(** X4: a telephony frame never makes the relay send on the telephony
    socket; and a frame whose event is not start, media or stop, such as
    connected or mark, changes nothing and sends nothing: it is logged
    twice when its event can be written into the log line, and reported by
    one error line when it cannot. *)
Theorem X4_telephony_frames_never_echo {runtime : Runtime} (s : session) (data : option value) :
  tel_sends (snd (step s (TelMessage data))) = []
  /\ (forall msg event,
        ws s = OPEN ->
        data = Some msg ->
        member msg "event" = Some event ->
        handled event = false ->
        fst (step s (TelMessage data)) = s
        /\ visible (snd (step s (TelMessage data))) = []
        /\ (to_string_throws event = false ->
            step s (TelMessage data)
            = (s, [Console Log "[Twilio] Received event: ${msg.event}" [event];
                   Console Log "[Twilio] Unhandled event: ${msg.event}" [event]]))
        /\ (to_string_throws event = true ->
            step s (TelMessage data)
            = (s, [ConsoleError "[Twilio] Error processing message:"
                     TypeError]))).
Proof.
  split.
  - destruct s as [sid cid sock params tel aw].
    unfold step, on_twilio_message, elevenLabs_is_open. js_crunch; js_done.
  - intros msg event Htel -> Hevent Hhandled. unfold handled in Hhandled.
    apply orb_false_elim in Hhandled as [Hhandled Hstop].
    apply orb_false_elim in Hhandled as [Hstart Hmedia].
    unfold step, on_twilio_message. rewrite Htel.
    destruct (to_string_throws event) eqn:Hprints;
      (split; [|split; [|split]]); try discriminate;
      try intros _; js_crunch; js_done.
Qed.

Lemma X4_connected_frame_witness :
  step started (TelMessage (Some (VObj [("event", VStr "connected")])))
  = (started,
     [Console Log "[Twilio] Received event: ${msg.event}" [VStr "connected"];
      Console Log "[Twilio] Unhandled event: ${msg.event}" [VStr "connected"]]).
Proof.
  destruct (proj2 (X4_telephony_frames_never_echo started
                     (Some (VObj [("event", VStr "connected")])))
              (VObj [("event", VStr "connected")]) (VStr "connected")
              eq_refl eq_refl eq_refl eq_refl)
    as (_ & _ & Hlogged & _).
  exact (Hlogged eq_refl).
Defined.

(** X5: a start frame assigns the three variables together or not at all:
    when its [start] member is [null] or missing the frame is reported as
    an error and the session is unchanged; otherwise the stream identifier,
    the call identifier and the parameters are all those of the frame, a
    missing one becoming [undefined].  In that case no error is reported
    when the two identifiers can be written into the log line, and one
    error is reported, after the assignments, when one of them cannot. *)
Theorem X5_start_all_or_nothing {runtime : Runtime} (s : session) (msg start : value) :
  ws s = OPEN ->
  member msg "event" = Some (VStr "start") ->
  member msg "start" = Some start ->
  (member start "streamSid" = None ->
   step s (TelMessage (Some msg))
   = (s, [Console Log "[Twilio] Received event: ${msg.event}" [VStr "start"];
          ConsoleError "[Twilio] Error processing message:" TypeError]))
  /\ (member start "streamSid" <> None ->
      fst (step s (TelMessage (Some msg)))
      = set_customParameters (opt_member start "customParameters")
          (set_callSid (opt_member start "callSid")
             (set_streamSid (opt_member start "streamSid") s))
      /\ (to_string_throws (opt_member start "streamSid") = false ->
          to_string_throws (opt_member start "callSid") = false ->
          errors (snd (step s (TelMessage (Some msg)))) = [])
      /\ (to_string_throws (opt_member start "streamSid") = true
          \/ to_string_throws (opt_member start "callSid") = true ->
          errors (snd (step s (TelMessage (Some msg))))
          = [("[Twilio] Error processing message:", TypeError)])).
Proof.
  intros Htel Hevent Hstart. split; intros Hsid.
  - unfold step, on_twilio_message. rewrite Htel. js_crunch; js_done.
  - destruct (member start "streamSid") as [sid|] eqn:Hs; [|congruence].
    destruct (member_some _ _ _ "callSid" Hs) as [cid Hcid].
    destruct (member_some _ _ _ "customParameters" Hs) as [params Hparams].
    unfold opt_member. rewrite Hs, Hcid, Hparams.
    split; [|split].
    + apply (start_assigns s msg start sid cid params
               Htel Hevent Hstart Hs Hcid Hparams).
    + intros Hpsid Hpcid.
      now rewrite (start_captured s msg start sid cid params
                     Htel Hevent Hstart Hs Hcid Hparams Hpsid Hpcid).
    + intros Hthrows. unfold step, on_twilio_message. rewrite Htel.
      destruct Hthrows as [Hthrows | Hthrows];
        js_crunch; js_done.
Qed.

Lemma X5_start_without_body_witness :
  step opened (TelMessage (Some (VObj [("event", VStr "start")])))
  = (opened,
     [Console Log "[Twilio] Received event: ${msg.event}" [VStr "start"];
      ConsoleError "[Twilio] Error processing message:" TypeError]).
Proof.
  apply (proj1 (X5_start_all_or_nothing opened
                  (VObj [("event", VStr "start")]) VUndefined
                  eq_refl eq_refl eq_refl)).
  reflexivity.
Defined.

(** X6: a media frame that has no [media] member, or whose payload is
    missing, [null], a number or a boolean, is reported as an error while
    the AI socket is open: nothing is sent and the session is unchanged. *)
Theorem X6_media_without_payload_rejected {runtime : Runtime} (s : session) (msg media : value) :
  ws s = OPEN ->
  elevenLabsWs s = Some OPEN ->
  member msg "event" = Some (VStr "media") ->
  member msg "media" = Some media ->
  (forall payload, member media "payload" = Some payload ->
                   match payload with
                   | VStr _ | VArr _ | VObj _ => False
                   | _ => True
                   end) ->
  step s (TelMessage (Some msg))
  = (s, [ConsoleError "[Twilio] Error processing message:" TypeError]).
Proof.
  intros Htel Hai Hevent Hmedia Hpayload.
  unfold step, on_twilio_message, elevenLabs_is_open. rewrite Htel.
  destruct (member media "payload") as [payload|] eqn:Hp.
  - specialize (Hpayload payload eq_refl).
    destruct payload; try contradiction; js_crunch; js_done.
  - js_crunch; js_done.
Qed.

Lemma X6_media_without_payload_witness :
  step opened (TelMessage (Some (VObj [("event", VStr "media")])))
  = (opened, [ConsoleError "[Twilio] Error processing message:" TypeError]).
Proof.
  apply (X6_media_without_payload_rejected opened
           (VObj [("event", VStr "media")]) VUndefined
           eq_refl eq_refl eq_refl eq_refl).
  intros payload Hp. discriminate Hp.
Defined.

(** ** Whole runs *)

Lemma tel_sends_app out1 out2 :
  tel_sends (out1 ++ out2) = tel_sends out1 ++ tel_sends out2.
Proof.
  induction out1 as [|[] out1 IH]; cbn; now rewrite ?IH.
Qed.

Lemma ai_sends_app out1 out2 :
  ai_sends (out1 ++ out2) = ai_sends out1 ++ ai_sends out2.
Proof.
  induction out1 as [|[] out1 IH]; cbn; now rewrite ?IH.
Qed.

Lemma step_routed {runtime : Runtime} (s : session) (e : event) :
  forallb routed (tel_sends (snd (step s e))) = true.
Proof.
  destruct s as [sid cid sock params tel aw].
  destruct e as [r acc| |data| | |data| |];
    relay_unfold; unfold media_frame, clear_frame; js_crunch; js_done.
  all: cbn; rewrite ?andb_true_r;
    repeat match goal with
           | H : truthy (opt_member ?v ?k) = true |- _ =>
               rewrite (member_opt_member v k _ ltac:(eassumption)) in H
           end; try assumption;
    apply andb_true_intro; split; assumption.
Qed.

(** X7: whatever the session and whatever the events, every frame the relay
    sends on the telephony socket is a media frame with a truthy stream
    identifier and a truthy payload, or a clear frame with a truthy stream
    identifier: nothing is sent to telephony without a stream to route it
    to. *)
Theorem X7_telephony_frames_are_routed {runtime : Runtime} (s : session) (es : list event) :
  forallb routed (tel_sends (snd (run s es))) = true.
Proof.
  revert s. induction es as [|e es IH]; intros s; [reflexivity|].
  rewrite run_cons. cbn [snd]. rewrite tel_sends_app, forallb_app.
  now rewrite step_routed, IH.
Qed.

(** ** The frames on the AI socket *)

Lemma step_shut {runtime : Runtime} (s : session) (e : event) :
  shut s ->
  shut (fst (step s e))
  /\ no_user_audio (ai_sends (snd (step s e))) = true.
Proof.
  unfold shut. destruct s as [sid cid sock params tel aw]. cbn.
  intros [-> [-> | [-> | ->]]];
    destruct e as [r acc| |data| | |data| |];
    relay_unfold; js_crunch; auto; js_done.
Qed.

Lemma run_shut {runtime : Runtime} (es : list event) :
  forall s, shut s -> no_user_audio (ai_sends (snd (run s es))) = true.
Proof.
  induction es as [|e es IH]; intros s Hshut; [reflexivity|].
  destruct (step_shut s e Hshut) as [Hshut' Hquiet].
  rewrite run_cons. cbn [snd]. unfold no_user_audio in *.
  now rewrite ai_sends_app, forallb_app, Hquiet, (IH _ Hshut').
Qed.

(** Once the socket has opened no handshake is sent. *)
Lemma step_after_open {runtime : Runtime} (s : session) (e : event) :
  stage s = 0 ->
  stage (fst (step s e)) = 0
  /\ no_handshake (ai_sends (snd (step s e))) = true.
Proof.
  destruct s as [sid cid sock params tel aw]. unfold stage. cbn.
  destruct aw; [discriminate|].
  destruct sock as [[]|]; try discriminate; intros _;
    destruct e as [r acc| |data| | |data| |];
    relay_unfold; js_crunch; auto; js_done.
Qed.

Lemma run_after_open {runtime : Runtime} (es : list event) :
  forall s, stage s = 0 -> no_handshake (ai_sends (snd (run s es))) = true.
Proof.
  induction es as [|e es IH]; intros s Hstage; [reflexivity|].
  destruct (step_after_open s e Hstage) as [Hstage' Hquiet].
  rewrite run_cons. cbn [snd]. unfold no_handshake in *.
  now rewrite ai_sends_app, forallb_app, Hquiet, (IH _ Hstage').
Qed.

(** Before the socket has opened a step sends nothing, unless it is the
    socket opening, which sends the handshake. *)
Lemma step_unopened {runtime : Runtime} (s : session) (e : event) :
  unopened s ->
  (ai_sends (snd (step s e)) = [] /\ unopened (fst (step s e)))
  \/ (ai_sends (snd (step s e)) = [] /\ shut (fst (step s e)))
  \/ (ai_sends (snd (step s e)) = [initialConfig (customParameters s)]
      /\ stage (fst (step s e)) = 0).
Proof.
  unfold unopened, shut. destruct s as [sid cid sock params tel aw]. cbn.
  intros [[-> ->] | [-> ->]];
    destruct e as [r acc| |data| | |data| |];
    relay_unfold; unfold stage; js_crunch; auto 10; js_done.
Qed.

Lemma shut_stage (s : session) : shut s -> stage s = 0.
Proof.
  unfold shut, stage. intros [-> [-> | [-> | ->]]]; reflexivity.
Qed.

Lemma no_handshake_tl frames :
  no_handshake frames = true -> no_handshake (tl frames) = true.
Proof.
  destruct frames as [|f frames]; [reflexivity|].
  cbn. intros H. now apply andb_prop in H.
Qed.

Lemma run_unopened {runtime : Runtime} (es : list event) :
  forall s, unopened s ->
    no_handshake (tl (ai_sends (snd (run s es)))) = true
    /\ (no_user_audio (ai_sends (snd (run s es))) = true
        \/ exists params rest,
             ai_sends (snd (run s es)) = initialConfig params :: rest).
Proof.
  induction es as [|e es IH]; intros s Hs; [split; [reflexivity | now left]|].
  rewrite run_cons. cbn [snd]. rewrite ai_sends_app.
  destruct (step_unopened s e Hs) as [[-> Hs'] | [[-> Hs'] | [-> Hs']]];
    cbn [app tl].
  - apply IH, Hs'.
  - split.
    + apply no_handshake_tl, run_after_open, shut_stage, Hs'.
    + left. apply run_shut, Hs'.
  - split.
    + apply run_after_open, Hs'.
    + right. eauto.
Qed.

(** X8: over a whole session, whatever the events, the handshake is sent at
    most once and only as the first frame on the AI socket; and the relay
    forwards no telephony audio to the AI before it has sent the
    handshake. *)
Theorem X8_handshake_first_and_once {runtime : Runtime} (es : list event) :
  no_handshake (tl (ai_sends (on_connection ++ snd (run connected es)))) = true
  /\ (no_user_audio (ai_sends (on_connection ++ snd (run connected es))) = true
      \/ exists params rest,
           ai_sends (on_connection ++ snd (run connected es))
           = initialConfig params :: rest).
Proof.
  rewrite ai_sends_app. cbn [on_connection ai_sends app].
  apply run_unopened. left. split; reflexivity.
Qed.

(** X9: once the AI socket is closing or closed, or could not be obtained,
    no telephony audio is forwarded to it any more, whatever comes later:
    after a Stop frame that closed the socket, the media frames that still
    arrive are dropped. *)
Theorem X9_no_audio_after_close {runtime : Runtime} (s : session) (es : list event) :
  awaitingSignedUrl s = false ->
  elevenLabsWs s = None \/ elevenLabsWs s = Some CLOSING
  \/ elevenLabsWs s = Some CLOSED ->
  no_user_audio (ai_sends (snd (run s es))) = true.
Proof.
  intros Haw Hsock. apply run_shut. now split.
Qed.

Lemma X9_media_after_stop_witness :
  no_user_audio
    (ai_sends (snd (run (fst (step started (TelMessage (Some stop_frame))))
                      [TelMessage (Some media_QUJD);
                       AiMessage (Some (ping_of (VNum 7)));
                       TelMessage (Some media_QUJD)]))) = true.
Proof.
  apply (X9_no_audio_after_close
           (fst (step started (TelMessage (Some stop_frame))))
           [TelMessage (Some media_QUJD);
            AiMessage (Some (ping_of (VNum 7)));
            TelMessage (Some media_QUJD)]
           eq_refl (or_intror (or_introl eq_refl))).
Defined.

(** ** The payload sent to the AI *)

(** X10: whatever string a media frame carries as its payload, the relay
    sends the AI the standard base64 encoding of the bytes the payload
    decodes to, the decoder reading every code unit by its low byte; and
    sending the result through the relay again would not change it. *)
Theorem X10_media_payload_normalised {runtime : Runtime}
    (s : session) (msg media : value) (payload : jsstring) :
  ws s = OPEN ->
  elevenLabsWs s = Some OPEN ->
  member msg "event" = Some (VStr "media") ->
  member msg "media" = Some media ->
  member media "payload" = Some (VStr payload) ->
  step s (TelMessage (Some msg))
  = (s, [AiSend (VObj [("user_audio_chunk",
                        VStr (encode (decode (map (fun u => u mod 256)%N
                                                  payload))))])])
  /\ encode (decode (encode (decode payload))) = encode (decode payload).
Proof.
  intros Htel Hai Hevent Hmedia Hpayload. split.
  - unfold step, on_twilio_message, elevenLabs_is_open. rewrite Htel.
    js_crunch; js_done. now rewrite decode_low_byte.
  - now rewrite decode_encode.
Qed.

Lemma X10_wide_payload_witness :
  step opened (TelMessage (Some (media_of [321; 337; 317; 317]%N)))
  = (opened, [AiSend (VObj [("user_audio_chunk", VStr "AQ==")])]).
Proof.
  apply (proj1 (X10_media_payload_normalised opened
                  (media_of [321; 337; 317; 317]%N)
                  (VObj [("payload", VStr [321; 337; 317; 317]%N)])
                  [321; 337; 317; 317]%N
                  eq_refl eq_refl eq_refl eq_refl eq_refl)).
Defined.

(** ** The handshake without parameters *)

(** X11: when the AI socket opens while no parameters are held, or the
    parameters are not an object, the "open" handler does not fail: it
    sends the handshake with the default prompt and the default opening
    utterance.  A prompt or an utterance that is the empty string counts as
    absent, each on its own. *)
Theorem X11_handshake_defaults {runtime : Runtime} (s : session) :
  elevenLabsWs s = Some CONNECTING ->
  errors (snd (step s AiOpened)) = []
  /\ ai_sends (snd (step s AiOpened)) = [initialConfig (customParameters s)]
  /\ (truthy (opt_member (customParameters s) "prompt") = false ->
      opt_member (opt_member (opt_member (opt_member
        (initialConfig (customParameters s))
        "conversation_config_override") "agent") "prompt") "prompt"
      = VStr "you are a gary from the phone store")
  /\ (truthy (opt_member (customParameters s) "first_message") = false ->
      opt_member (opt_member (opt_member
        (initialConfig (customParameters s))
        "conversation_config_override") "agent") "first_message"
      = VStr "hey there! how can I help you today?").
Proof.
  intros Hai. unfold step, on_elevenlabs_open. rewrite Hai.
  unfold initialConfig, handshake, or_else.
  repeat split; try (intros ->); js_crunch; js_done.
Qed.

Lemma X11_open_before_start_witness :
  ai_sends (snd (step (fst (step connected (Fetched signed true))) AiOpened))
  = [handshake (VStr "you are a gary from the phone store")
               (VStr "hey there! how can I help you today?")].
Proof.
  destruct (X11_handshake_defaults
              (fst (step connected (Fetched signed true))) eq_refl)
    as (_ & Hsent & _).
  exact Hsent.
Defined.

(** ** Fetching the signed address *)

(** X12: [getSignedUrl] touches no variable and either returns the
    [signed_url] member of the body, logging nothing, or logs one line and
    throws the error it logged.  It throws when the fetch is rejected, when
    the response is not ok, when the body is not JSON and when the body is
    [null]; a body without the member is no error: the result is
    [undefined]. *)
Theorem X12_getSignedUrl_outcomes (r : fetch_result) (s : session) :
  (fetch_throws r = true /\
   exists e, getSignedUrl r s
             = (Thrown e, s, [ConsoleError "Error getting signed URL:" e]))
  \/ (fetch_throws r = false /\
      exists data, r = FetchResponse true (Some data)
                   /\ getSignedUrl r s
                      = (Normal (opt_member data "signed_url"), s, [])).
Proof.
  destruct (fetch_throws r) eqn:Hr.
  - left. split; [reflexivity|]. now apply getSignedUrl_throws.
  - right. split; [reflexivity|].
    destruct r as [|[] [data|]]; cbn in Hr; try discriminate.
    exists data. split; [reflexivity|].
    unfold opt_member. destruct (member data "signed_url") eqn:Hurl;
      [|discriminate].
    unfold getSignedUrl. js_crunch; js_done.
Qed.

(** X13: when the signed address cannot be fetched the relay logs the
    failure twice, once in [getSignedUrl] and once in [setupElevenLabs],
    with the same error; when the address is there but no socket can be
    made of it, once.  Either way no socket is held afterwards. *)
Theorem X13_setup_failure_logged {runtime : Runtime}
    (s : session) (r : fetch_result) (accepted : bool) :
  awaitingSignedUrl s = true ->
  (fetch_throws r = true ->
   exists e,
     step s (Fetched r accepted)
     = (set_awaitingSignedUrl false s,
        [ConsoleError "Error getting signed URL:" e;
         ConsoleError "[ElevenLabs] Setup error:" e]))
  /\ (fetch_throws r = false -> accepted = false ->
      step s (Fetched r accepted)
      = (set_awaitingSignedUrl false s,
         [ConsoleError "[ElevenLabs] Setup error:" SyntaxError])).
Proof.
  intros Haw. unfold step, setupElevenLabs. rewrite Haw. split.
  - intros Hr.
    destruct (getSignedUrl_throws r (set_awaitingSignedUrl false s) Hr)
      as [e He].
    exists e. unfold exec, try_catch. cbn [bind Monad_js]. unfold js_bind.
    rewrite He. reflexivity.
  - intros Hr ->.
    destruct (getSignedUrl_returns r (set_awaitingSignedUrl false s) Hr)
      as [url Hurl].
    unfold exec, try_catch. cbn [bind Monad_js]. unfold js_bind.
    rewrite Hurl. reflexivity.
Qed.

Lemma X13_rejected_fetch_witness :
  exists e,
    step connected (Fetched FetchRejected true)
    = (set_awaitingSignedUrl false connected,
       [ConsoleError "Error getting signed URL:" e;
        ConsoleError "[ElevenLabs] Setup error:" e]).
Proof.
  apply (proj1 (X13_setup_failure_logged connected FetchRejected true eq_refl)).
  reflexivity.
Defined.

(** ** The relay of [index.js] against the relay of [outbound.js] *)

Ltac inbound_unfold :=
  unfold Inbound.step, Inbound.on_elevenlabs_open, Inbound.on_twilio_message.

Lemma inbound_run_cons {runtime : Runtime} s e es :
  Inbound.run s (e :: es)
  = (fst (Inbound.run (fst (Inbound.step s e)) es),
     snd (Inbound.step s e) ++ snd (Inbound.run (fst (Inbound.step s e)) es)).
Proof.
  cbn [Inbound.run]. destruct (Inbound.step s e) as [s1 out1]. cbn [fst snd].
  destruct (Inbound.run s1 es) as [s2 out2]. reflexivity.
Qed.

(** The two relays go in step: from sessions that differ at most in
    [customParameters] they reach such sessions again, the relay of
    [index.js] keeping its own, and they emit the same frames and calls but
    for the handshake. *)
Lemma inbound_step {runtime : Runtime} (si so : session) (e : event) :
  si = set_customParameters (customParameters si) so ->
  fst (Inbound.step si e)
  = set_customParameters (customParameters si) (fst (step so e))
  /\ visible (snd (Inbound.step si e))
     = filter not_handshake (visible (snd (step so e))).
Proof.
  destruct si as [sid cid sock params tel aw].
  destruct so as [sid' cid' sock' params' tel' aw'].
  unfold set_customParameters. cbn. intros [= <- <- <- <- <-].
  destruct e as [r acc| |data| | |data| |];
    inbound_unfold; relay_unfold;
    unfold pong_frame, user_audio_frame, media_frame, clear_frame;
    js_crunch; auto; js_done.
Qed.

Lemma inbound_run {runtime : Runtime} (es : list event) :
  forall si so,
    si = set_customParameters (customParameters si) so ->
    fst (Inbound.run si es)
    = set_customParameters (customParameters si) (fst (run so es))
    /\ visible (snd (Inbound.run si es))
       = filter not_handshake (visible (snd (run so es))).
Proof.
  induction es as [|e es IH]; intros si so Hrel; [now split|].
  destruct (inbound_step si so e Hrel) as [Hs Hout].
  assert (Hkeep : customParameters (fst (Inbound.step si e)) = customParameters si).
  { rewrite Hs. reflexivity. }
  destruct (IH (fst (Inbound.step si e)) (fst (step so e))) as [Hs' Hout'].
  { rewrite Hkeep. exact Hs. }
  rewrite inbound_run_cons, run_cons. cbn [fst snd].
  rewrite !visible_app, filter_app, Hout, Hout', Hs', Hkeep. now split.
Qed.

(** X14: the relay of [index.js] behaves as the relay of [outbound.js]
    without the handshake: on the same events from the same session the two
    send the same frames to telephony and to the AI, make the same close
    calls and the same fetch, except that [index.js] sends no handshake;
    and [index.js] never assigns [customParameters], the other variables
    ending equal. *)
Theorem X14_inbound_relay_is_outbound_without_handshake {runtime : Runtime}
    (s : session) (es : list event) :
  fst (Inbound.run s es)
  = set_customParameters (customParameters s) (fst (run s es))
  /\ visible (snd (Inbound.run s es))
     = filter not_handshake (visible (snd (run s es)))
  /\ filter not_handshake (visible (snd (Inbound.run s es)))
     = visible (snd (Inbound.run s es)).
Proof.
  destruct (inbound_run es s s) as [Hs Hout].
  { now destruct s. }
  repeat split; try assumption.
  rewrite Hout. clear. induction (visible (snd (run s es))) as [|x l IH];
    [reflexivity|].
  cbn [filter]. destruct (not_handshake x) eqn:Hx; [|exact IH].
  cbn [filter]. now rewrite Hx, IH.
Qed.

(** * Further properties of [/process-speech] *)

(** In this section the names are those of [ProcessSpeech]. *)
Section Speech.
Import ProcessSpeech SpeechTerms.

Ltac route_unfold :=
  unfold step, on_fetched, on_open, on_message, on_error, on_timeout, resume.

Lemma replies_app out1 out2 : replies (out1 ++ out2) = replies out1 ++ replies out2.
Proof. apply filter_app. Qed.

(** A reply uses up the one reply a request has. *)
Lemma speech_step_replies (q : request) (e : event) :
  pending_fetch q ->
  pending_fetch (fst (step q e))
  /\ length (replies (snd (step q e))) + replies_left (fst (step q e))
     <= replies_left q.
Proof.
  unfold pending_fetch, replies_left.
  destruct q as [speech sock audio p aw armed done]. cbn.
  intros Hwf. destruct aw.
  - destruct (Hwf eq_refl) as [-> ->].
    destruct e as [r acc| |data| | |]; route_unfold; js_crunch;
      repeat split; auto; js_done.
  - destruct e as [r acc| |data| | |]; route_unfold; js_crunch;
      repeat split; auto; js_done.
Qed.

Lemma speech_run_replies (es : list event) :
  forall q, pending_fetch q ->
            length (replies (snd (run q es))) + replies_left (fst (run q es))
            <= replies_left q.
Proof.
  induction es as [|e es IH]; intros q Hwf; [cbn; lia|].
  destruct (speech_step_replies q e Hwf) as [Hwf' Hstep].
  specialize (IH _ Hwf').
  rewrite speech_run_cons. cbn [fst snd]. rewrite replies_app, length_app. lia.
Qed.

(** While the address is awaited nothing runs. *)
Lemma speech_waits (es : list event) :
  forall speech, forallb (fun e => negb (is_Fetched e)) es = true ->
                 run (received speech) es = (received speech, []).
Proof.
  induction es as [|e es IH]; intros speech Hes; [reflexivity|].
  cbn [forallb] in Hes. apply andb_prop in Hes as [He Hes].
  rewrite speech_run_cons.
  assert (Hstep : step (received speech) e = (received speech, [])).
  { destruct e; try discriminate; reflexivity. }
  rewrite Hstep. cbn [fst snd]. now rewrite (IH _ Hes).
Qed.

(** X15: a request is never answered twice, whatever the events; and while
    [getSignedUrl] has not settled nothing happens at all: no socket, no
    timer and no reply, so the ten seconds do not bound the fetch. *)
Theorem X15_at_most_one_reply (speech : value) (es : list event) :
  length (replies (on_request ++ snd (run (received speech) es))) <= 1
  /\ (forallb (fun e => negb (is_Fetched e)) es = true ->
      run (received speech) es = (received speech, [])).
Proof.
  split; [|apply speech_waits].
  assert (Hwf : pending_fetch (received speech)) by (intros _; now split).
  pose proof (speech_run_replies es (received speech) Hwf) as H.
  rewrite replies_app. cbn in *. lia.
Qed.

(** After a failed setup, or once the timer is set, the request is or will
    be answered. *)
Lemma speech_step_will_reply (q : request) (e : event) :
  will_reply q ->
  will_reply (fst (step q e))
  /\ (e = TimerFired -> replied (fst (step q e)) = true).
Proof.
  unfold will_reply. destruct q as [speech sock audio p aw armed done]. cbn.
  intros [-> [-> | [-> Hsock]]];
    destruct e as [r acc| |data| | |]; route_unfold; js_crunch;
    repeat split; auto; try discriminate; js_done.
  all: try (right; split; [reflexivity | discriminate]).
Qed.

(** A request is marked as answered only by a reply. *)
Lemma speech_step_marks (q : request) (e : event) :
  replied (fst (step q e)) = true ->
  replied q = true \/ 1 <= length (replies (snd (step q e))).
Proof.
  destruct q as [speech sock audio p aw armed done]. cbn.
  destruct done; [now left|]. intros Hafter. right. revert Hafter.
  destruct e as [r acc| |data| | |]; route_unfold; js_crunch;
    intros; try discriminate; cbn; lia.
Qed.

Lemma speech_run_marks (es : list event) :
  forall q, replied (fst (run q es)) = true ->
            replied q = true \/ 1 <= length (replies (snd (run q es))).
Proof.
  induction es as [|e es IH]; intros q Hafter; [now left|].
  rewrite speech_run_cons in *. cbn [fst snd] in *.
  rewrite replies_app, length_app.
  destruct (IH _ Hafter) as [Hmid | Hlate]; [|right; lia].
  destruct (speech_step_marks q e Hmid) as [Hnow | Hstep]; [now left|right; lia].
Qed.

Lemma speech_run_will_reply (es : list event) :
  forall q, will_reply q -> will_reply (fst (run q es)).
Proof.
  induction es as [|e es IH]; intros q Hq; [exact Hq|].
  rewrite speech_run_cons. cbn [fst]. apply IH, speech_step_will_reply, Hq.
Qed.

Lemma speech_replied_kept (es : list event) :
  forall q, awaitingSignedUrl q = false -> replied q = true ->
            replied (fst (run q es)) = true.
Proof.
  induction es as [|e es IH]; intros q Haw Hdone; [exact Hdone|].
  destruct (speech_replied_step q e Haw Hdone) as (Haw' & Hdone' & _).
  rewrite speech_run_cons. cbn [fst]. now apply IH.
Qed.

Lemma speech_run_app q es1 es2 :
  run q (es1 ++ es2)
  = (fst (run (fst (run q es1)) es2),
     snd (run q es1) ++ snd (run (fst (run q es1)) es2)).
Proof.
  revert q. induction es1 as [|e es1 IH]; intros q.
  - cbn. now destruct (run q es2).
  - rewrite <- app_comm_cons, !speech_run_cons, IH. cbn [fst snd].
    now rewrite app_assoc.
Qed.

(** X16: once [getSignedUrl] has settled and the timer has fired, the
    request has been answered exactly once, whatever else happened before,
    between or after: the caller always gets markup. *)
Theorem X16_exactly_one_reply_after_timeout
    (speech : value) (r : fetch_result) (accepted : bool)
    (es1 es2 : list event) :
  length (replies (snd (run (received speech)
                          (Fetched r accepted :: es1 ++ TimerFired :: es2))))
  = 1.
Proof.
  assert (Hwf : pending_fetch (received speech)) by (intros _; now split).
  pose proof (speech_run_replies
                (Fetched r accepted :: es1 ++ TimerFired :: es2)
                (received speech) Hwf) as Hmost.
  cbn [replies_left received awaitingSignedUrl] in Hmost.
  enough (1 <= length (replies (snd (run (received speech)
                          (Fetched r accepted :: es1 ++ TimerFired :: es2)))))
    by lia.
  assert (Hq : will_reply (fst (step (received speech) (Fetched r accepted)))).
  { unfold will_reply, received, step, on_fetched. cbn [awaitingSignedUrl].
    destruct (fetch_throws r) eqn:Hr.
    - destruct (getSignedUrl_throws r
                  (set_awaitingSignedUrl false
                     (mkRequest speech None VNull Pending true false false)) Hr)
        as [e He].
      unfold exec, try_catch. cbn [bind Monad_js]. unfold js_bind.
      rewrite He. cbn. auto.
    - destruct (getSignedUrl_returns r
                  (set_awaitingSignedUrl false
                     (mkRequest speech None VNull Pending true false false)) Hr)
        as [url Hurl].
      unfold exec, try_catch. cbn [bind Monad_js]. unfold js_bind.
      rewrite Hurl. destruct accepted; cbn; auto.
      split; [reflexivity|]. right. split; [reflexivity | discriminate]. }
  set (q1 := fst (run (fst (step (received speech) (Fetched r accepted))) es1)).
  assert (Hq1 : will_reply q1) by (apply speech_run_will_reply, Hq).
  destruct (speech_step_will_reply q1 TimerFired Hq1) as [Hq2 Hfired].
  specialize (Hfired eq_refl).
  assert (Hend : replied (fst (run (received speech)
            (Fetched r accepted :: es1 ++ TimerFired :: es2))) = true).
  { rewrite speech_run_cons. cbn [fst].
    rewrite speech_run_app. cbn [fst]. fold q1.
    rewrite speech_run_cons. cbn [fst].
    apply speech_replied_kept; [apply Hq2 | exact Hfired]. }
  destruct (speech_run_marks _ _ Hend) as [Habs | Hone]; [discriminate | exact Hone].
Qed.

(** X17: the first audio message with a payload, coming while the route
    waits, closes the socket and settles the promise with that payload,
    [audio.chunk] being taken before [audio_event.audio_base_64].  The
    route answers with the markup that plays the payload when the payload
    can be written into the markup, and with the apology when it cannot. *)
Theorem X17_first_audio_is_played (q : request) (message : value) :
  ws q = Some OPEN ->
  conversationPromise q = Pending ->
  replied q = false ->
  member message "type" = Some (VStr "audio") ->
  truthy (audio_payload message) = true ->
  (to_string_throws (audio_payload message) = false ->
   step q (Message (Some message))
   = (set_replied true
        (set_conversationPromise (Fulfilled (audio_payload message))
           (set_ws (Some CLOSING)
              (set_audioResponse (audio_payload message) q))),
      [Console Log "Received message type:" [VStr "audio"];
       AiClose;
       Reply (PlayThenGather (audio_payload message))]))
  /\ (to_string_throws (audio_payload message) = true ->
      step q (Message (Some message))
      = (set_replied true
           (set_conversationPromise (Fulfilled (audio_payload message))
              (set_ws (Some CLOSING)
                 (set_audioResponse (audio_payload message) q))),
         [Console Log "Received message type:" [VStr "audio"];
          AiClose;
          ConsoleError "Error processing speech:" TypeError;
          Reply (SayThenHangup
                   "Sorry, there was an error processing your request.")])).
Proof.
  intros Hsock Hpending Hdone Htype Hpay.
  destruct (member_some _ _ _ "audio" Htype) as [audio Haudio].
  destruct (member_some _ _ _ "audio_event" Htype) as [audio_event Hevent].
  unfold audio_payload, or_else in *.
  rewrite (member_opt_member _ _ _ Haudio) in *.
  rewrite (member_opt_member _ _ _ Hevent) in *.
  destruct q as [speech sock audio0 p aw armed done].
  cbn in Hsock, Hpending, Hdone. subst.
  split; intros Hprints; route_unfold;
    destruct (truthy (opt_member audio "chunk")) eqn:Hchunk;
    js_crunch; js_done.
Qed.

Lemma X17_first_audio_witness :
  visible (snd (step (fst (run (received (VStr "hello"))
                             [Fetched signed true; Opened]))
                  (Message (Some (audio_of (VStr "ZGVm"))))))
  = [AiClose; Reply (PlayThenGather (VStr "ZGVm"))].
Proof.
  rewrite (proj1 (X17_first_audio_is_played
                    (fst (run (received (VStr "hello"))
                            [Fetched signed true; Opened]))
                    (audio_of (VStr "ZGVm"))
                    eq_refl eq_refl eq_refl eq_refl eq_refl) eq_refl).
  reflexivity.
Defined.

(** X18: when [getSignedUrl] throws, or no socket can be made of the
    address, the route answers at once with the spoken error and hangup;
    no socket is opened and no timer set, and nothing that comes later has
    any effect. *)
Theorem X18_failed_setup_replies_error
    (speech : value) (r : fetch_result) (accepted : bool) (es : list event) :
  fetch_throws r = true \/ accepted = false ->
  visible (snd (run (received speech) (Fetched r accepted :: es)))
  = [Reply (SayThenHangup sorry_text)]
  /\ fst (run (received speech) (Fetched r accepted :: es))
     = mkRequest speech None VNull Pending false false true.
Proof.
  intros Hfail.
  assert (Hstep : fst (step (received speech) (Fetched r accepted))
                  = mkRequest speech None VNull Pending false false true
                  /\ visible (snd (step (received speech) (Fetched r accepted)))
                     = [Reply (SayThenHangup sorry_text)]).
  { unfold received, step, on_fetched. cbn [awaitingSignedUrl].
    destruct (fetch_throws r) eqn:Hr.
    - destruct (getSignedUrl_throws r
                  (set_awaitingSignedUrl false
                     (mkRequest speech None VNull Pending true false false)) Hr)
        as [e He].
      unfold exec, try_catch. cbn [bind Monad_js]. unfold js_bind.
      rewrite He. cbn. auto.
    - destruct Hfail as [Hfail | ->]; [discriminate|].
      destruct (getSignedUrl_returns r
                  (set_awaitingSignedUrl false
                     (mkRequest speech None VNull Pending true false false)) Hr)
        as [url Hurl].
      unfold exec, try_catch. cbn [bind Monad_js]. unfold js_bind.
      rewrite Hurl. cbn. auto. }
  destruct Hstep as [Hstate Hout].
  assert (Hdead : forall es',
             run (mkRequest speech None VNull Pending false false true) es'
             = (mkRequest speech None VNull Pending false false true, [])).
  { induction es' as [|e es' IH]; [reflexivity|].
    rewrite speech_run_cons.
    assert (He : step (mkRequest speech None VNull Pending false false true) e
                 = (mkRequest speech None VNull Pending false false true, []))
      by (destruct e; reflexivity).
    rewrite He. cbn [fst snd]. now rewrite IH. }
  rewrite speech_run_cons. cbn [fst snd].
  rewrite Hstate, Hdead, visible_app, Hout. split; reflexivity.
Qed.

Lemma X18_rejected_fetch_witness :
  visible (snd (run (received (VStr "hello"))
                  [Fetched FetchRejected true; Opened; TimerFired]))
  = [Reply (SayThenHangup sorry_text)].
Proof.
  apply (proj1 (X18_failed_setup_replies_error (VStr "hello") FetchRejected true
                  [Opened; TimerFired] (or_introl eq_refl))).
Defined.

(** X19: an error on the socket while the route waits is answered by the
    spoken error and hangup, without a close call. *)
Theorem X19_socket_error_replies_error (q : request) (st : readyState) :
  ws q = Some st ->
  st <> CLOSED ->
  conversationPromise q = Pending ->
  replied q = false ->
  step q Errored
  = (set_replied true
       (set_conversationPromise (Rejected SocketError)
          (set_ws (Some CLOSING) q)),
     [ConsoleError "WebSocket error:" SocketError;
      ConsoleError "Error processing speech:" SocketError;
      Reply (SayThenHangup sorry_text)]).
Proof.
  intros Hsock Hst Hpending Hdone.
  destruct q as [speech sock audio p aw armed done].
  cbn in Hsock, Hpending, Hdone. subst.
  destruct st; try contradiction; reflexivity.
Qed.

Lemma X19_socket_error_witness :
  visible (snd (step (fst (step (received (VStr "hello")) (Fetched signed true)))
                  Errored))
  = [Reply (SayThenHangup sorry_text)].
Proof.
  rewrite (X19_socket_error_replies_error
             (fst (step (received (VStr "hello")) (Fetched signed true)))
             CONNECTING eq_refl ltac:(discriminate) eq_refl eq_refl).
  reflexivity.
Defined.

(** X20: a message that is not audio, or an audio message without a
    payload, is only logged: the route keeps waiting, nothing is sent,
    closed or replied and the request is unchanged. *)
Theorem X20_other_messages_keep_waiting
    (q : request) (message type : value) :
  ws q = Some OPEN ->
  conversationPromise q = Pending ->
  member message "type" = Some type ->
  is_str type "audio" = false \/ truthy (audio_payload message) = false ->
  step q (Message (Some message))
  = (q, [Console Log "Received message type:" [type]]).
Proof.
  intros Hsock Hpending Htype Hother.
  destruct (member_some _ _ _ "audio" Htype) as [audio Haudio].
  destruct (member_some _ _ _ "audio_event" Htype) as [audio_event Hevent].
  unfold audio_payload, or_else in *.
  rewrite (member_opt_member _ _ _ Haudio) in *.
  rewrite (member_opt_member _ _ _ Hevent) in *.
  destruct q as [speech sock audio0 p aw armed done].
  cbn in Hsock, Hpending. subst.
  route_unfold.
  destruct Hother as [Hother | Hother].
  - js_crunch; js_done.
  - destruct (truthy (opt_member audio "chunk")) eqn:Hchunk;
      js_crunch; js_done.
Qed.

Lemma X20_ping_keeps_waiting_witness :
  step (fst (run (received (VStr "hello")) [Fetched signed true; Opened]))
       (Message (Some (ping_of (VNum 7))))
  = (fst (run (received (VStr "hello")) [Fetched signed true; Opened]),
     [Console Log "Received message type:" [VStr "ping"]]).
Proof.
  apply (X20_other_messages_keep_waiting
           (fst (run (received (VStr "hello")) [Fetched signed true; Opened]))
           (ping_of (VNum 7)) (VStr "ping") eq_refl eq_refl eq_refl
           (or_introl eq_refl)).
Defined.

(** X21: when the socket opens the route sends two frames, in this order:
    the configuration with its fixed prompt, then the caller's speech as a
    text message; nothing of the request changes the configuration. *)
Theorem X21_open_sends_config_then_speech (q : request) :
  ws q = Some CONNECTING ->
  conversationPromise q = Pending ->
  ai_sends (snd (step q Opened))
  = [VObj [("type", VStr "conversation_initiation_client_data");
           ("conversation_config_override",
            VObj [("agent",
              VObj [("prompt",
                VObj [("prompt", VStr "you are a helpful AI assistant")])])])];
     VObj [("type", VStr "text"); ("text", speechResult q)]]
  /\ replies (snd (step q Opened)) = [].
Proof.
  intros Hsock Hpending.
  destruct q as [speech sock audio p aw armed done].
  cbn in Hsock, Hpending. subst.
  route_unfold. js_crunch; js_done; split; reflexivity.
Qed.

Lemma X21_open_witness :
  ai_sends (snd (step (fst (step (received (VStr "hello")) (Fetched signed true)))
                   Opened))
  = [VObj [("type", VStr "conversation_initiation_client_data");
           ("conversation_config_override",
            VObj [("agent",
              VObj [("prompt",
                VObj [("prompt", VStr "you are a helpful AI assistant")])])])];
     VObj [("type", VStr "text"); ("text", VStr "hello")]].
Proof.
  apply (proj1 (X21_open_sends_config_then_speech
                  (fst (step (received (VStr "hello")) (Fetched signed true)))
                  eq_refl eq_refl)).
Defined.

(** X22: the timer is never cleared: when it fires after the request was
    answered it calls [ws.close()] once more and does nothing else; the
    reply that went out stands. *)
Theorem X22_timer_after_reply_only_closes (q : request) (st : readyState) :
  replied q = true ->
  timerArmed q = true ->
  ws q = Some st ->
  step q TimerFired
  = (match conversationPromise q with
     | Pending => set_conversationPromise (Rejected ConversationTimeout)
     | _ => fun q' => q'
     end (set_ws (Some (after_close st)) (set_timerArmed false q)),
     [AiClose]).
Proof.
  intros Hdone Harmed Hsock.
  destruct q as [speech sock audio p aw armed done].
  cbn in Hsock, Harmed, Hdone. subst.
  route_unfold. destruct p; js_crunch; js_done.
Qed.

Lemma X22_timer_after_audio_witness :
  snd (step (fst (run (received (VStr "hello"))
                    [Fetched signed true; Opened;
                     Message (Some (audio_of (VStr "ZGVm")))]))
         TimerFired)
  = [AiClose].
Proof.
  rewrite (X22_timer_after_reply_only_closes
             (fst (run (received (VStr "hello"))
                     [Fetched signed true; Opened;
                      Message (Some (audio_of (VStr "ZGVm")))]))
             CLOSING eq_refl eq_refl eq_refl).
  reflexivity.
Defined.

End Speech.

(** * Properties of the HTTP routes *)

(** In this section the names are those of [Routes]. *)
Section Http.
Import Routes RouteTerms.

(** X23: [/outbound-call] places no call without a number: when the body
    has no [number], or a falsy one such as the empty string, the only
    thing the route does is to answer 400, whatever the rest of the
    request. *)
Theorem X23_no_number_no_call
    (caller body headers number : value) (created : option value) :
  member body "number" = Some number ->
  truthy number = false ->
  outbound_call caller body headers created
  = Some [SendJson 400 (VObj [("error", VStr "Phone number is required")])].
Proof.
  intros Hnumber Hfalsy. unfold outbound_call.
  destruct (member_some _ _ _ "prompt" Hnumber) as [p ->].
  destruct (member_some _ _ _ "first_message" Hnumber) as [f ->].
  now rewrite Hnumber, Hfalsy.
Qed.

Lemma X23_empty_body_witness :
  outbound_call (VStr "+15550100") (VObj []) (VObj [("host", VStr "h")]) None
  = Some [SendJson 400 (VObj [("error", VStr "Phone number is required")])].
Proof.
  apply (X23_no_number_no_call (VStr "+15550100") (VObj [])
           (VObj [("host", VStr "h")]) VUndefined None eq_refl eq_refl).
Defined.

(** X24: whenever [/outbound-call] runs to its end it has answered exactly
    once and placed at most one call; a call is placed only to the truthy
    [number] of the body; when the host, the prompt and the opening
    utterance can be written into the address of the call, the answer is
    200 with the [sid] of the call exactly when the call was created; and
    the answer is 500 when creating it failed, or when the address could
    not be written, in which case no call is placed. *)
Theorem X24_one_answer_at_most_one_call
    (caller body headers : value) (created : option value)
    (acts : list action) :
  outbound_call caller body headers created = Some acts ->
  length (filter is_send acts) = 1
  /\ (callees acts = []
      \/ exists number, callees acts = [number]
                        /\ member body "number" = Some number
                        /\ truthy number = true)
  /\ (forall host call sid,
        truthy (opt_member body "number") = true ->
        member headers "host" = Some host ->
        to_string_throws host = false ->
        to_string_throws (opt_member body "prompt") = false ->
        uri_malformed (opt_member body "prompt") = false ->
        to_string_throws (opt_member body "first_message") = false ->
        uri_malformed (opt_member body "first_message") = false ->
        created = Some call ->
        member call "sid" = Some sid ->
        acts = [CallsCreate caller (opt_member body "number") host
                  (opt_member body "prompt") (opt_member body "first_message");
                SendJson 200 (VObj [("success", VBool true);
                                    ("message", VStr "Call initiated");
                                    ("callSid", sid)])])
  /\ (truthy (opt_member body "number") = true ->
      created = None ->
      filter is_send acts
      = [SendJson 500 (VObj [("success", VBool false);
                             ("error", VStr "Failed to initiate call")])])
  /\ (forall host,
        truthy (opt_member body "number") = true ->
        member headers "host" = Some host ->
        to_string_throws host = true
        \/ to_string_throws (opt_member body "prompt") = true
        \/ uri_malformed (opt_member body "prompt") = true
        \/ to_string_throws (opt_member body "first_message") = true
        \/ uri_malformed (opt_member body "first_message") = true ->
        callees acts = []
        /\ filter is_send acts
           = [SendJson 500 (VObj [("success", VBool false);
                                  ("error", VStr "Failed to initiate call")])]).
Proof.
  unfold outbound_call, opt_member.
  destruct (member body "number") as [number|] eqn:Hn; [|discriminate].
  destruct (member body "prompt") as [p|]; [|discriminate].
  destruct (member body "first_message") as [f|]; [|discriminate].
  destruct (truthy number) eqn:Ht; cbn [negb].
  - destruct (member headers "host") as [host|] eqn:Hh;
      [destruct (to_string_throws host) eqn:Hph;
       destruct (to_string_throws p) eqn:Hpp;
       destruct (uri_malformed p) eqn:Hup;
       destruct (to_string_throws f) eqn:Hpf;
       destruct (uri_malformed f) eqn:Huf; cbn [orb];
       try (destruct created as [call|];
            [destruct (member call "sid") as [sid|] eqn:Hsid|])|];
      intros [= <-]; cbn; repeat split; eauto; intros; try congruence.
    all: repeat match goal with
                | H : Some _ = Some _ |- _ => injection H as <-
                | H : _ \/ _ |- _ => destruct H
                end; try congruence.
  - intros [= <-]. cbn. repeat split; auto; intros; discriminate.
Qed.

Lemma X24_call_placed_witness :
  length (filter is_send
    [CallsCreate (VStr "+15550100") (VStr "+15550123") (VStr "h")
       (VStr "p") VUndefined;
     SendJson 200 (VObj [("success", VBool true);
                         ("message", VStr "Call initiated");
                         ("callSid", VStr "CA1")])]) = 1.
Proof.
  apply (X24_one_answer_at_most_one_call (VStr "+15550100")
           (VObj [("number", VStr "+15550123"); ("prompt", VStr "p")])
           (VObj [("host", VStr "h")])
           (Some (VObj [("sid", VStr "CA1")])) _ eq_refl).
Defined.

(** X25: off Vercel the markup of [/outbound-call-twiml] hands the stream
    the prompt and the opening utterance of the query, the empty string
    standing for an absent one; a relay that gets these parameters in its
    Start frame sends the AI the prompt and the utterance of the query
    where they are given, and its defaults where they are absent or
    empty. *)
Theorem X25_twiml_parameters_reach_handshake
    (VERCEL_URL VERCEL query headers p f host : value) :
  truthy VERCEL = false ->
  member query "prompt" = Some p ->
  member query "first_message" = Some f ->
  member headers "host" = Some host ->
  exists parameters,
    outbound_call_twiml VERCEL_URL VERCEL query headers
    = Some [SendXml (ConnectStream (or_else VERCEL_URL host)
                       "/outbound-media-stream" parameters)]
    /\ parameters = [("prompt", or_else p (VStr ""));
                     ("first_message", or_else f (VStr ""))]
    /\ initialConfig (VObj parameters)
       = handshake
           (or_else p (VStr "you are a gary from the phone store"))
           (or_else f (VStr "hey there! how can I help you today?")).
Proof.
  intros Hlocal Hp Hf Hhost. eexists. split; [|split; [reflexivity|]].
  - unfold outbound_call_twiml. rewrite Hp, Hf, Hhost, Hlocal.
    unfold or_else. destruct (truthy VERCEL_URL); reflexivity.
  - unfold initialConfig, or_else, opt_member. cbn.
    destruct (truthy p) eqn:Htp, (truthy f) eqn:Htf; cbn;
      rewrite ?Htp, ?Htf; reflexivity.
Qed.

Lemma X25_twiml_witness :
  exists parameters,
    outbound_call_twiml VUndefined VUndefined
      (VObj [("prompt", VStr "p")]) (VObj [("host", VStr "h")])
    = Some [SendXml (ConnectStream (VStr "h") "/outbound-media-stream"
                       parameters)]
    /\ parameters = [("prompt", VStr "p"); ("first_message", VStr "")]
    /\ initialConfig (VObj parameters)
       = handshake (VStr "p") (VStr "hey there! how can I help you today?").
Proof.
  apply (X25_twiml_parameters_reach_handshake VUndefined VUndefined
           (VObj [("prompt", VStr "p")]) (VObj [("host", VStr "h")])
           (VStr "p") VUndefined (VStr "h") eq_refl eq_refl eq_refl eq_refl).
Defined.

(** X26: on Vercel the markup of [/outbound-call-twiml] does not depend on
    the prompt, nor on the host: two requests with the same opening
    utterance get the same markup, which opens no stream. *)
Theorem X26_twiml_on_vercel_ignores_prompt
    (VERCEL_URL1 VERCEL_URL2 VERCEL query1 query2 headers1 headers2 : value) :
  truthy VERCEL = true ->
  opt_member query1 "first_message" = opt_member query2 "first_message" ->
  outbound_call_twiml VERCEL_URL1 VERCEL query1 headers1 <> None ->
  outbound_call_twiml VERCEL_URL2 VERCEL query2 headers2 <> None ->
  outbound_call_twiml VERCEL_URL1 VERCEL query1 headers1
  = outbound_call_twiml VERCEL_URL2 VERCEL query2 headers2
  /\ outbound_call_twiml VERCEL_URL1 VERCEL query1 headers1
     = Some [SendXml (SayThenGather "Hello"
                        (or_else (opt_member query1 "first_message")
                                 (VStr "")))].
Proof.
  unfold outbound_call_twiml, opt_member. intros Hv Hsame.
  destruct (member query1 "prompt"); [|congruence].
  destruct (member query1 "first_message"); [|congruence].
  destruct (member query2 "prompt"); [|congruence].
  destruct (member query2 "first_message"); [|congruence].
  subst. rewrite Hv.
  destruct (if truthy VERCEL_URL1 then _ else _); [|congruence].
  destruct (if truthy VERCEL_URL2 then _ else _); [|congruence].
  intros _ _. split; reflexivity.
Qed.

Lemma X26_vercel_witness :
  outbound_call_twiml VUndefined (VStr "1")
    (VObj [("prompt", VStr "p"); ("first_message", VStr "hi")])
    (VObj [("host", VStr "h")])
  = outbound_call_twiml (VStr "app.vercel.app") (VStr "1")
      (VObj [("first_message", VStr "hi")]) VNull.
Proof.
  apply (X26_twiml_on_vercel_ignores_prompt VUndefined (VStr "app.vercel.app")
           (VStr "1")
           (VObj [("prompt", VStr "p"); ("first_message", VStr "hi")])
           (VObj [("first_message", VStr "hi")])
           (VObj [("host", VStr "h")]) VNull
           eq_refl eq_refl ltac:(discriminate) ltac:(discriminate)).
Defined.

End Http.
